(** * Watchlist engine of [main.py] ([StockAnalyzer])

    A shallow embedding of the daily pipeline

      calendar gate -> snapshot fetch -> rule evaluator -> persistence

    Conventions of the embedding.

    - pandas/numpy floats are exact rationals plus a not-a-number value
      ([num]); comparisons with NaN are false and arithmetic propagates it,
      as in IEEE arithmetic.  Rounding of the subtraction is not modelled.
    - a DataFrame is the list of its rows, in index order; only the columns
      the program reads are kept.
    - the dictionaries of [care.json] and [result.json] are records: the
      state files are taken to have the shape the program writes, so the
      KeyError and TypeError that entries of another shape raise are
      outside the model.
    - the data provider, the files of the working directory and the calls
      made are an explicit [world], threaded by a small state monad.
    - logging and the creation of the [data] and [log] directories are
      left out. *)

From Stdlib Require Import List String Ascii Bool Arith ZArith QArith Lia Lqa.
From Stdlib Require Import Permutation Sorted DecimalString.
Import ListNotations.

Close Scope Q_scope.
Open Scope string_scope.
Open Scope list_scope.

(** ** Numbers *)

Inductive num : Type :=
| NaN
| Fin (q : Q).

Definition Qltb (a b : Q) : bool := negb (Qle_bool b a).

(** [a < b] on floats. *)
Definition num_lt (a b : num) : bool :=
  match a, b with
  | Fin x, Fin y => Qltb x y
  | _, _ => false
  end.

(** [a > b] on floats. *)
Definition num_gt (a b : num) : bool := num_lt b a.

(** [a >= b] on floats. *)
Definition num_ge (a b : num) : bool :=
  match a, b with
  | Fin x, Fin y => Qle_bool y x
  | _, _ => false
  end.

(** [a - b] on floats. *)
Definition num_sub (a b : num) : num :=
  match a, b with
  | Fin x, Fin y => Fin (x - y)%Q
  | _, _ => NaN
  end.

(** [Series.notna()]. *)
Definition notna (a : num) : bool :=
  match a with
  | NaN => false
  | Fin _ => true
  end.

(** [bool(x)] of a float: zero is false, everything else, NaN included,
    is true. *)
Definition num_truthy (a : num) : bool :=
  match a with
  | NaN => true
  | Fin q => negb (Qeq_bool q 0%Q)
  end.

Definition of_int (z : Z) : num := Fin (inject_Z z).

(** ** Tables of the data provider *)

(** A row of [ak.stock_main_fund_flow]. *)
Record flow_row : Type := mk_flow_row {
  flow_code : string;              (* 代码 *)
  flow_name : string;              (* 名称 *)
  flow_latest_price : num;         (* 最新价 *)
  flow_main_net_ratio : num;       (* 今日排行榜-主力净占比 *)
  flow_today_change : num          (* 今日排行榜-今日涨跌 *)
}.

(** A row of [ak.stock_zh_a_spot_em]. *)
Record spot_row : Type := mk_spot_row {
  spot_code : string;              (* 代码 *)
  spot_name : string;              (* 名称 *)
  spot_latest_price : num;         (* 最新价 *)
  spot_highest : num               (* 最高 *)
}.

Definition flow_df := list flow_row.
Definition spot_df := list spot_row.

(** [df[df['代码'] == code]]. *)
Definition flow_with_code (df : flow_df) (code : string) : flow_df :=
  filter (fun r => String.eqb (flow_code r) code) df.

Definition spot_with_code (df : spot_df) (code : string) : spot_df :=
  filter (fun r => String.eqb (spot_code r) code) df.

(** [df.iloc[0]], guarded in the source by [not df.empty]; [None] is the
    empty frame. *)
Definition iloc0 {A : Type} (df : list A) : option A := hd_error df.

(** [Series.str.contains(pat)] for a pattern without regex operators. *)
Definition str_contains (pat s : string) : bool :=
  match String.index 0 pat s with
  | Some _ => true
  | None => false
  end.

(** ** The watch list and the ledger *)

(** An entry of [care.json].  [code], [buy_price] and [start_time] are
    read with [stock[...]]; the other keys are optional. *)
Record care_stock : Type := mk_care_stock {
  care_code : string;
  care_name : option string;
  care_buy_price : num;
  care_start_time : string;
  care_current_price : option num;
  care_main_net_ratio : option num;
  care_today_change : option num;
  care_remark : option string
}.

(** An entry of [settled_stocks] in [result.json]. *)
Record settled_stock : Type := mk_settled_stock {
  settled_code : string;
  settled_name : string;
  settled_buy_price : num;
  settled_start_time : string;
  settled_current_price : num;
  settled_main_net_ratio : num;
  settled_today_change : num;
  settled_profit_loss : num;
  settled_remark : string
}.

(** ** Dates and the clock *)

Record date : Type := mk_date { year : nat; month : nat; day : nat }.

Record datetime : Type := mk_datetime {
  dt_date : date;
  hour : nat;
  minute : nat;
  second : nat
}.

Definition digit (n : nat) : ascii := ascii_of_nat (48 + n mod 10).

Definition two_digits (n : nat) : string :=
  String (digit (n / 10)) (String (digit n) "").

Definition four_digits (n : nat) : string :=
  String (digit (n / 1000)) (String (digit (n / 100)) (two_digits n)).

(** [str(d)] of a [datetime.date]: the year padded to four digits. *)
Definition isoformat (d : date) : string :=
  four_digits (year d) ++ "-" ++ two_digits (month d) ++ "-"
    ++ two_digits (day d).

(** The decimal digits of a number, without padding. *)
Definition decimal (n : nat) : string :=
  NilZero.string_of_uint (Nat.to_uint n).

(** [%Y] of [strftime], as the C library of Linux prints it: a year below
    1000 is not padded. *)
Definition strftime_Y (y : nat) : string :=
  if (y <? 1000)%nat then decimal y else four_digits y.

(** [strftime('%Y-%m-%d')]. *)
Definition strftime_date (d : date) : string :=
  strftime_Y (year d) ++ "-" ++ two_digits (month d) ++ "-"
    ++ two_digits (day d).

(** [strftime('%Y-%m-%d %H:%M:%S')]. *)
Definition strftime_seconds (t : datetime) : string :=
  strftime_date (dt_date t) ++ " " ++ two_digits (hour t) ++ ":"
    ++ two_digits (minute t) ++ ":" ++ two_digits (second t).

(** The fields of [self] the pipeline reads. *)
Record StockAnalyzer : Type := mk_StockAnalyzer {
  today : string;
  current_time : string
}.

(** [__init__], given the two readings of [datetime.now()]. *)
Definition init (now1 now2 : datetime) : StockAnalyzer :=
  {| today := strftime_date (dt_date now1);
     current_time := strftime_seconds now2 |}.

(** The dates [datetime.date] can hold print with fixed width. *)
Definition date_ok (d : date) : Prop :=
  year d / 1000 < 10 /\ month d < 100 /\ day d < 100.

(** ** The world: provider, files, calls made *)

Inductive ak_method : Type :=
| Trade_calendar
| Stock_spot
| Main_fund_flow.

Inductive event : Type :=
| Called (m : ak_method)
| Slept (seconds : nat).

(** What the provider answers to the successive calls of each operation;
    [None] is a call that raises, and so is a call past the end. *)
Record akshare : Type := mk_akshare {
  tool_trade_date_hist_sina : list (option (list date));
  stock_zh_a_spot_em : list (option spot_df);
  stock_main_fund_flow : list (option flow_df)
}.

(** A JSON or text file: absent, present without a whole value in it (it
    fails to open or parse, or a write to it was cut short), or holding a
    value. *)
Inductive file (A : Type) : Type :=
| Absent
| Unreadable
| Stored (a : A).

Arguments Absent {A}.
Arguments Unreadable {A}.
Arguments Stored {A} a.

(** The object of [result.json]; [settled_stocks] is read with [.get]. *)
Record result_data : Type := mk_result_data {
  last_update : string;
  settled_stocks : option (list settled_stock)
}.

Inductive path : Type :=
| care_file
| backup_file (name : string)
| result_json_file
| result_file.

(** [write_fails] tells which files cannot be written now; for those,
    [cut_short] tells whether the failure comes once the file is open for
    writing, and so emptied, or already at [open]. *)
Record disk : Type := mk_disk {
  care_json : file (list care_stock);
  data_dir : list (string * file (list care_stock));
  result_json : file result_data;
  result_md : file string;
  write_fails : path -> bool;
  cut_short : path -> bool
}.

Record world : Type := mk_world {
  provider : akshare;
  files : disk;
  trace : list event
}.

Definition M (A : Type) : Type := world -> A * world.

Definition ret {A : Type} (a : A) : M A := fun w => (a, w).

Definition bind {A B : Type} (c : M A) (k : A -> M B) : M B :=
  fun w => let (a, w') := c w in k a w'.

Notation "x <- c ;; k" := (bind c (fun x => k))
  (at level 61, c at next level, right associativity).
Notation "c ;;; k" := (bind c (fun _ => k))
  (at level 61, right associativity).

Definition emit (e : event) : M unit :=
  fun w => (tt, {| provider := provider w; files := files w;
                   trace := trace w ++ [e] |}).

Definition read_files : M disk := fun w => (files w, w).

Definition write_files (d : disk) : M unit :=
  fun w => (tt, {| provider := provider w; files := d; trace := trace w |}).

Definition set_provider (p : akshare) : M unit :=
  fun w => (tt, {| provider := p; files := files w; trace := trace w |}).

(** [time.sleep]. *)
Definition sleep (seconds : nat) : M unit := emit (Slept seconds).

(** The three provider operations. *)
Definition ak_tool_trade_date_hist_sina : M (option (list date)) :=
  fun w =>
    let p := provider w in
    let (reply, rest) :=
      match tool_trade_date_hist_sina p with
      | [] => (None, [])
      | r :: rest => (r, rest)
      end in
    (set_provider {| tool_trade_date_hist_sina := rest;
                     stock_zh_a_spot_em := stock_zh_a_spot_em p;
                     stock_main_fund_flow := stock_main_fund_flow p |} ;;;
     emit (Called Trade_calendar) ;;; ret reply) w.

Definition ak_stock_zh_a_spot_em : M (option spot_df) :=
  fun w =>
    let p := provider w in
    let (reply, rest) :=
      match stock_zh_a_spot_em p with
      | [] => (None, [])
      | r :: rest => (r, rest)
      end in
    (set_provider {| tool_trade_date_hist_sina := tool_trade_date_hist_sina p;
                     stock_zh_a_spot_em := rest;
                     stock_main_fund_flow := stock_main_fund_flow p |} ;;;
     emit (Called Stock_spot) ;;; ret reply) w.

Definition ak_stock_main_fund_flow : M (option flow_df) :=
  fun w =>
    let p := provider w in
    let (reply, rest) :=
      match stock_main_fund_flow p with
      | [] => (None, [])
      | r :: rest => (r, rest)
      end in
    (set_provider {| tool_trade_date_hist_sina := tool_trade_date_hist_sina p;
                     stock_zh_a_spot_em := stock_zh_a_spot_em p;
                     stock_main_fund_flow := rest |} ;;;
     emit (Called Main_fund_flow) ;;; ret reply) w.

(** ** The retrying fetch ([fetch_data_by_ak]) *)

(** [for attempt in range(max_retries)], the operation selected by name
    in the source passed as [call]. *)
Fixpoint fetch_attempts {A : Type} (call : M (option A))
  (max_retries retry_delay : nat) (attempts : list nat) : M (option A) :=
  match attempts with
  | [] => ret None
  | attempt :: rest =>
      r <- call ;;
      match r with
      | Some data => ret (Some data)
      | None =>
          (if (attempt <? max_retries - 1)%nat
           then sleep retry_delay else ret tt) ;;;
          fetch_attempts call max_retries retry_delay rest
      end
  end.

Definition fetch_data_by_ak {A : Type} (call : M (option A))
  (max_retries retry_delay : nat) : M (option A) :=
  fetch_attempts call max_retries retry_delay (seq 0 max_retries).

(** The first answer that is not a failure. *)
Fixpoint first_success {A : Type} (replies : list (option A)) : option A :=
  match replies with
  | [] => None
  | Some a :: _ => Some a
  | None :: rest => first_success rest
  end.

(** The events of [k] failed attempts, each followed by the pause, and
    of one more call. *)
Definition attempts_trace (m : ak_method) (retry_delay k : nat)
  : list event :=
  List.concat (repeat [Called m; Slept retry_delay] k) ++ [Called m].

Definition get_trade_calendar : M (option (list date)) :=
  fetch_data_by_ak ak_tool_trade_date_hist_sina 3 25.

Definition get_stock_data : M (option spot_df) :=
  fetch_data_by_ak ak_stock_zh_a_spot_em 3 25.

(** ** Calendar gate *)

Definition is_trading_day (self : StockAnalyzer) : M bool :=
  trade_calendar <- get_trade_calendar ;;
  match trade_calendar with
  | None => ret false
  | Some trade_calendar =>
      let today_str := today self in
      let trading_days := map isoformat trade_calendar in
      ret (existsb (String.eqb today_str) trading_days)
  end.

(** ** Reading the state files *)

Definition load_care_stocks : M (list care_stock) :=
  d <- read_files ;;
  match care_json d with
  | Stored care_stocks => ret care_stocks
  | Unreadable => ret []
  | Absent => ret []
  end.

Definition load_previous_settlements : M (list settled_stock) :=
  d <- read_files ;;
  match result_json d with
  | Stored data =>
      match settled_stocks data with
      | Some previous_settlements => ret previous_settlements
      | None => ret []
      end
  | Unreadable => ret []
  | Absent => ret []
  end.

(** ** Exceptions *)

(** The exception that can leave [analyze_stocks] on state files of the
    shape the program writes: the one of an unguarded [.iloc[0]]. *)
Inductive exn : Type :=
| IndexError.

Inductive result (A : Type) : Type :=
| Ok (a : A)
| Raise (e : exn).

Arguments Ok {A} a.
Arguments Raise {A} e.

Section Analyzer.

(** [str(x)] of a float, as an f-string interpolates it. *)
Variable str_float : num -> string.

(** ** Rule evaluator: one watched stock *)

(** The three remarks of [analyze_stocks]. *)
Definition remark_ratio_below (main_net_ratio : num) : string :=
  "主力净占比" ++ str_float main_net_ratio ++ "%小于-5%，触发卖出条件".

Definition remark_change_above_10 (main_net_ratio : num) : string :=
  "今日涨幅" ++ str_float main_net_ratio ++ "%大于10%，触发卖出条件".

Definition remark_change_above_0 (main_net_ratio : num) : string :=
  "今日涨幅" ++ str_float main_net_ratio ++ "%大于0%，且主力净占比"
    ++ str_float main_net_ratio ++ "%小于0%，触发卖出条件".

(** [highest_price]: the day high of the first spot row with the code,
    Python's [None] when there is none. *)
Definition highest_price_of (stock_data : spot_df) (stock_code : string)
  : option num :=
  let stock_all_data := spot_with_code stock_data stock_code in
  match iloc0 stock_all_data with
  | Some r => Some (spot_highest r)
  | None => None
  end.

(** The profit of rules 1 and 3:
<<
    profit_loss = current_price - stock['buy_price']
    if highest_price:
        if highest_price > stock['buy_price']:
            profit_loss = 0
>> *)
Definition profit_loss_break_even
  (highest_price : option num) (current_price buy_price : num) : num :=
  let profit_loss := num_sub current_price buy_price in
  match highest_price with
  | Some h =>
      if num_truthy h then
        if num_gt h buy_price then of_int 0 else profit_loss
      else profit_loss
  | None => profit_loss
  end.

Definition settle (stock : care_stock) (row : flow_row)
  (profit_loss : num) (remark : string) : settled_stock :=
  {| settled_code := care_code stock;
     settled_name := flow_name row;
     settled_buy_price := care_buy_price stock;
     settled_start_time := care_start_time stock;
     settled_current_price := flow_latest_price row;
     settled_main_net_ratio := flow_main_net_ratio row;
     settled_today_change := flow_today_change row;
     settled_profit_loss := profit_loss;
     settled_remark := remark |}.

(** The [else] branch: the dictionary is refreshed in place. *)
Definition refresh (stock : care_stock) (row : flow_row) : care_stock :=
  {| care_code := care_code stock;
     care_name := Some (flow_name row);
     care_buy_price := care_buy_price stock;
     care_start_time := care_start_time stock;
     care_current_price := Some (flow_latest_price row);
     care_main_net_ratio := Some (flow_main_net_ratio row);
     care_today_change := Some (flow_today_change row);
     care_remark := care_remark stock |}.

(** What one iteration of [for stock in care_stocks] appends, and where. *)
Inductive verdict : Type :=
| Settle (s : settled_stock)     (* settled_stocks.append *)
| Watch (c : care_stock).        (* updated_care_stocks.append *)

(** The contribution of a verdict to each accumulator. *)
Definition settled_of (v : verdict) : list settled_stock :=
  match v with
  | Settle s => [s]
  | Watch _ => []
  end.

Definition watched_of (v : verdict) : list care_stock :=
  match v with
  | Settle _ => []
  | Watch c => [c]
  end.

(** The rule cascade on a matched row. *)
Definition apply_rules (highest_price : option num)
  (stock : care_stock) (row : flow_row) : verdict :=
  let main_net_ratio := flow_main_net_ratio row in
  let current_price := flow_latest_price row in
  let today_change := flow_today_change row in
  if num_lt main_net_ratio (of_int (-5)) then
    Settle (settle stock row
              (profit_loss_break_even highest_price current_price
                 (care_buy_price stock))
              (remark_ratio_below main_net_ratio))
  else if num_gt today_change (of_int 10) then
    Settle (settle stock row
              (num_sub current_price (care_buy_price stock))
              (remark_change_above_10 main_net_ratio))
  else if num_gt today_change (of_int 0)
          && num_lt main_net_ratio (of_int 0) then
    Settle (settle stock row
              (profit_loss_break_even highest_price current_price
                 (care_buy_price stock))
              (remark_change_above_0 main_net_ratio))
  else Watch (refresh stock row).

(** The body of the loop over [care_stocks]. *)
Definition analyze_care_stock (stock_data : spot_df)
  (main_fund_flow_df : flow_df) (stock : care_stock) : verdict :=
  let stock_code := care_code stock in
  let stock_flow_data := flow_with_code main_fund_flow_df stock_code in
  let highest_price := highest_price_of stock_data stock_code in
  match iloc0 stock_flow_data with
  | Some row => apply_rules highest_price stock row
  | None => Watch stock
  end.

(** The loop itself, with its two accumulators. *)
Fixpoint care_loop (stock_data : spot_df) (main_fund_flow_df : flow_df)
  (care_stocks : list care_stock)
  (settled_stocks : list settled_stock)
  (updated_care_stocks : list care_stock)
  : list settled_stock * list care_stock :=
  match care_stocks with
  | [] => (settled_stocks, updated_care_stocks)
  | stock :: rest =>
      match analyze_care_stock stock_data main_fund_flow_df stock with
      | Settle s =>
          care_loop stock_data main_fund_flow_df rest
            (settled_stocks ++ [s]) updated_care_stocks
      | Watch c =>
          care_loop stock_data main_fund_flow_df rest
            settled_stocks (updated_care_stocks ++ [c])
      end
  end.

(** ** Candidate ranking ([get_main_fund_flow]) *)

(** [sort_values(by="今日排行榜-主力净占比", ascending=False)].  pandas
    sorts with an unstable algorithm, so the order of rows with equal keys
    is not fixed: the sort is a parameter.  Its contract (the rows are
    rearranged so that none has a smaller key than a later one, rows
    without a key last) is assumed where the ranking is reasoned about. *)
Variable sort_values_desc : flow_df -> flow_df.

(** The boolean mask of [filtered_df]. *)
Definition candidate_mask (r : flow_row) : bool :=
  notna (flow_latest_price r)
  && num_gt (flow_main_net_ratio r) (of_int 0)
  && negb (str_contains "ST" (flow_name r))
  && num_lt (flow_today_change r) (of_int 0).

Definition filtered_df (df : flow_df) : flow_df := filter candidate_mask df.

Definition result_df_of (df : flow_df) : flow_df :=
  sort_values_desc (filtered_df df).

(** [result_df.head(5)['代码'].tolist() if len(result_df) >= 5 else []]. *)
Definition top_5_stocks (result_df : flow_df) : list string :=
  if (5 <=? List.length result_df)%nat then map flow_code (firstn 5 result_df) else [].

(** ** Adding the candidates *)

(** [any(stock['code'] == stock_code for stock in updated_care_stocks)]. *)
Definition already_watched (updated_care_stocks : list care_stock)
  (stock_code : string) : bool :=
  existsb (fun stock => String.eqb (care_code stock) stock_code)
    updated_care_stocks.

Definition new_stock (current_time stock_code : string)
  (info : spot_row) (row : flow_row) : care_stock :=
  {| care_code := stock_code;
     care_name := Some (spot_name info);
     care_buy_price := spot_latest_price info;
     care_start_time := current_time;
     care_current_price := Some (spot_latest_price info);
     care_main_net_ratio := Some (flow_main_net_ratio row);
     care_today_change := Some (flow_today_change row);
     care_remark := None |}.

(** [for stock_code in top_5_stocks: ...].  The ranking row is read with
    an unguarded [.iloc[0]], which raises on an empty selection. *)
Fixpoint add_top_stocks (current_time : string) (stock_data : spot_df)
  (result_df : flow_df) (top_5 : list string)
  (updated_care_stocks : list care_stock) : result (list care_stock) :=
  match top_5 with
  | [] => Ok updated_care_stocks
  | stock_code :: rest =>
      if already_watched updated_care_stocks stock_code then
        add_top_stocks current_time stock_data result_df rest
          updated_care_stocks
      else
        match iloc0 (spot_with_code stock_data stock_code) with
        | None =>
            add_top_stocks current_time stock_data result_df rest
              updated_care_stocks
        | Some info =>
            match iloc0 (flow_with_code result_df stock_code) with
            | None => Raise IndexError
            | Some row =>
                add_top_stocks current_time stock_data result_df rest
                  (updated_care_stocks
                     ++ [new_stock current_time stock_code info row])
            end
        end
  end.

(** Steps A to C on fetched tables: the new settlements and the updated
    watch list. *)
Definition evaluate (current_time : string) (care_stocks : list care_stock)
  (stock_data : spot_df) (result_df main_fund_flow_df : flow_df)
  : result (list settled_stock * list care_stock) :=
  let top_5 := top_5_stocks result_df in
  let '(settled_stocks, updated_care_stocks) :=
    care_loop stock_data main_fund_flow_df care_stocks [] [] in
  match add_top_stocks current_time stock_data result_df top_5
          updated_care_stocks with
  | Ok updated => Ok (settled_stocks, updated)
  | Raise e => Raise e
  end.

Definition get_main_fund_flow : M (option flow_df * option flow_df) :=
  stock_main_fund_flow_df <- fetch_data_by_ak ak_stock_main_fund_flow 3 25 ;;
  match stock_main_fund_flow_df with
  | None => ret (None, None)
  | Some df => ret (Some (result_df_of df), Some df)
  end.

(** ** Persistence and the report *)

Definition put_backup (name : string) (content : file (list care_stock))
  (dir : list (string * file (list care_stock)))
  : list (string * file (list care_stock)) :=
  (name, content)
    :: filter (fun entry => negb (String.eqb (fst entry) name)) dir.

(** The backup file of that name, if there is one. *)
Definition read_backup (name : string)
  (dir : list (string * file (list care_stock)))
  : option (file (list care_stock)) :=
  match find (fun entry => String.eqb (fst entry) name) dir with
  | Some entry => Some (snd entry)
  | None => None
  end.

(** [open(..., 'w')], [json.dump] and [copy2] are inside the [try]; the
    handler only logs.  A failure of [open] leaves the file as it is; a
    failure of [json.dump], or of the copy once the target is open,
    leaves the file cut short.  The copy is not reached when [care.json]
    could not be written. *)
Definition save_care_stocks (self : StockAnalyzer)
  (care_stocks : list care_stock) : M unit :=
  d <- read_files ;;
  if write_fails d care_file then
    if cut_short d care_file then
      write_files {| care_json := Unreadable;
                     data_dir := data_dir d;
                     result_json := result_json d;
                     result_md := result_md d;
                     write_fails := write_fails d;
                     cut_short := cut_short d |}
    else ret tt
  else
    let d1 := {| care_json := Stored care_stocks;
                 data_dir := data_dir d;
                 result_json := result_json d;
                 result_md := result_md d;
                 write_fails := write_fails d;
                 cut_short := cut_short d |} in
    write_files d1 ;;;
    let backup_name := ("care_" ++ today self ++ ".json")%string in
    if write_fails d (backup_file backup_name) then
      if cut_short d (backup_file backup_name) then
        write_files {| care_json := care_json d1;
                       data_dir := put_backup backup_name Unreadable
                                     (data_dir d1);
                       result_json := result_json d1;
                       result_md := result_md d1;
                       write_fails := write_fails d1;
                       cut_short := cut_short d1 |}
      else ret tt
    else
      write_files {| care_json := care_json d1;
                     data_dir := put_backup backup_name
                                   (Stored care_stocks) (data_dir d1);
                     result_json := result_json d1;
                     result_md := result_md d1;
                     write_fails := write_fails d1;
                     cut_short := cut_short d1 |}.

Definition save_settlements_to_json (self : StockAnalyzer)
  (settled : list settled_stock) : M unit :=
  d <- read_files ;;
  let result_data := {| last_update := current_time self;
                        settled_stocks := Some settled |} in
  if write_fails d result_json_file then
    if cut_short d result_json_file then
      write_files {| care_json := care_json d;
                     data_dir := data_dir d;
                     result_json := Unreadable;
                     result_md := result_md d;
                     write_fails := write_fails d;
                     cut_short := cut_short d |}
    else ret tt
  else
    write_files {| care_json := care_json d;
                   data_dir := data_dir d;
                   result_json := Stored result_data;
                   result_md := result_md d;
                   write_fails := write_fails d;
                   cut_short := cut_short d |}.

(** [f"{x:.2f}"] and [f"{x:+.2f}"]. *)
Variable format_2f : num -> string.
Variable format_signed_2f : num -> string.

Definition nl : string := String (ascii_of_nat 10) "".

(** [stock.get(key, 'N/A')] interpolated. *)
Definition get_or_na {A : Type} (show : A -> string) (v : option A)
  : string :=
  match v with
  | Some a => show a
  | None => "N/A"
  end.

Definition care_line (stock : care_stock) : string :=
  let remark := match care_remark stock with
                | Some r => r
                | None => "正常关注中"
                end in
  care_code stock ++ " | " ++ get_or_na (fun n => n) (care_name stock)
    ++ " | " ++ format_2f (care_buy_price stock)
    ++ " | " ++ care_start_time stock
    ++ " | " ++ get_or_na str_float (care_current_price stock)
    ++ " | " ++ get_or_na str_float (care_main_net_ratio stock) ++ "%"
    ++ " | " ++ get_or_na str_float (care_today_change stock) ++ "%"
    ++ " | " ++ remark ++ nl.

Definition settled_line (stock : settled_stock) : string :=
  let profit_loss_str := format_signed_2f (settled_profit_loss stock) in
  settled_code stock ++ " | " ++ settled_name stock
    ++ " | " ++ format_2f (settled_buy_price stock)
    ++ " | " ++ settled_start_time stock
    ++ " | " ++ format_2f (settled_current_price stock)
    ++ " | " ++ str_float (settled_main_net_ratio stock) ++ "%"
    ++ " | " ++ str_float (settled_today_change stock) ++ "%"
    ++ " | " ++ profit_loss_str
    ++ " | " ++ settled_remark stock ++ nl.

Definition report_content (self : StockAnalyzer)
  (care_stocks : list care_stock) (settled : list settled_stock) : string :=
  "# 股票分析结果（" ++ current_time self ++ "）" ++ nl ++ nl
    ++ "## 当前关注的股票" ++ nl ++ nl
    ++ "股票代码 | 股票名称 | 模拟买入价格 | 关注的起始时间 | 当前价格 | 今日排行榜-主力净占比 | 今日排行榜-今日涨跌 | 备注" ++ nl
    ++ "--- | --- | --- | --- | --- | --- | --- | ---" ++ nl
    ++ match care_stocks with
       | [] => "暂无关注股票" ++ nl
       | _ :: _ => String.concat "" (map care_line care_stocks)
       end
    ++ nl
    ++ "## 已经结算的股票" ++ nl ++ nl
    ++ "股票代码 | 股票名称 | 模拟买入价格 | 关注的起始时间 | 当前价格 | 今日排行榜-主力净占比 | 今日排行榜-今日涨跌 | 盈亏 | 备注" ++ nl
    ++ "--- | --- | --- | --- | --- | --- | --- | --- | ---" ++ nl
    ++ match settled with
       | [] => "暂无结算股票" ++ nl
       | _ :: _ => String.concat "" (map settled_line settled)
       end.

Definition save_result_report (self : StockAnalyzer)
  (care_stocks : list care_stock) (settled : list settled_stock) : M unit :=
  d <- read_files ;;
  let content := report_content self care_stocks settled in
  if write_fails d result_file then
    if cut_short d result_file then
      write_files {| care_json := care_json d;
                     data_dir := data_dir d;
                     result_json := result_json d;
                     result_md := Unreadable;
                     write_fails := write_fails d;
                     cut_short := cut_short d |}
    else ret tt
  else
    write_files {| care_json := care_json d;
                   data_dir := data_dir d;
                   result_json := result_json d;
                   result_md := Stored content;
                   write_fails := write_fails d;
                   cut_short := cut_short d |}.

(** ** The pipeline ([analyze_stocks]) *)

(** How the call ends: it returns, or an exception leaves it. *)
Inductive outcome : Type :=
| Returned
| Raised (e : exn).

Definition analyze_stocks (self : StockAnalyzer) : M outcome :=
  trading <- is_trading_day self ;;
  if negb trading then ret Returned
  else
    care_stocks <- load_care_stocks ;;
    stock_data <- get_stock_data ;;
    match stock_data with
    | None => ret Returned
    | Some stock_data =>
        frames <- get_main_fund_flow ;;
        match frames with
        | (Some result_df, Some main_fund_flow_df) =>
            match evaluate (current_time self) care_stocks stock_data
                    result_df main_fund_flow_df with
            | Raise e => ret (Raised e)
            | Ok (settled, updated_care_stocks) =>
                previous_settlements <- load_previous_settlements ;;
                let all_settled_stocks := previous_settlements ++ settled in
                save_care_stocks self updated_care_stocks ;;;
                save_settlements_to_json self all_settled_stocks ;;;
                save_result_report self updated_care_stocks
                  all_settled_stocks ;;;
                ret Returned
            end
        | _ => ret Returned
        end
    end.

End Analyzer.

(** ** Instances used to run the model *)

(** A rendering of numbers as fractions, standing for [str] and the
    [.2f] formats when the model is run. *)
Definition str_Z (z : Z) : string := NilZero.string_of_int (Z.to_int z).

Definition str_fraction (a : num) : string :=
  match a with
  | NaN => "nan"
  | Fin q => str_Z (Qnum q) ++ "/" ++ str_Z (Zpos (Qden q))
  end.

(** A descending sort with missing keys last: insertion into the rows
    with a key, then the rows without. *)
Fixpoint insert_desc (r : flow_row) (l : flow_df) : flow_df :=
  match l with
  | [] => [r]
  | y :: l' =>
      if num_lt (flow_main_net_ratio y) (flow_main_net_ratio r)
      then r :: y :: l'
      else y :: insert_desc r l'
  end.

Definition insertion_sort_desc (df : flow_df) : flow_df :=
  fold_right insert_desc []
    (filter (fun r => notna (flow_main_net_ratio r)) df)
  ++ filter (fun r => negb (notna (flow_main_net_ratio r))) df.

(** One watched stock, one quote and one ranking row. *)
Definition demo_stock (buy_price : num) : care_stock :=
  {| care_code := "600000";
     care_name := Some "PF BANK";
     care_buy_price := buy_price;
     care_start_time := "2025-01-02 15:30:00";
     care_current_price := None;
     care_main_net_ratio := None;
     care_today_change := None;
     care_remark := None |}.

Definition demo_spot (latest highest : num) : spot_df :=
  [ {| spot_code := "600000"; spot_name := "PF BANK";
       spot_latest_price := latest; spot_highest := highest |} ].

Definition demo_flow (latest ratio change : num) : flow_df :=
  [ {| flow_code := "600000"; flow_name := "PF BANK";
       flow_latest_price := latest;
       flow_main_net_ratio := ratio;
       flow_today_change := change |} ].

(** A market of eight ranked stocks, six of which pass the filter, and a
    watch list of three: one to settle, one ranked and kept, one unknown
    to the ranking. *)
Definition ranked (code name : string) (latest ratio change : Z)
  : flow_row :=
  {| flow_code := code; flow_name := name;
     flow_latest_price := of_int latest;
     flow_main_net_ratio := of_int ratio;
     flow_today_change := of_int change |}.

Definition quoted (code name : string) (latest highest : Z) : spot_row :=
  {| spot_code := code; spot_name := name;
     spot_latest_price := of_int latest;
     spot_highest := of_int highest |}.

Definition demo_ranking : flow_df :=
  [ ranked "000001" "ALPHA" 10 3 (-1);
    ranked "000002" "BETA" 20 9 (-2);
    ranked "000003" "ST GAMMA" 5 50 (-1);
    ranked "000004" "DELTA" 7 5 (-3);
    ranked "000005" "EPSILON" 8 1 (-1);
    ranked "000006" "ZETA" 9 7 (-1);
    ranked "000007" "ETA" 11 2 (-2);
    ranked "600000" "PF BANK" 9 (-6) 1 ].

Definition demo_market : spot_df :=
  [ quoted "000001" "ALPHA" 10 11;
    quoted "000002" "BETA" 20 21;
    quoted "000004" "DELTA" 7 8;
    quoted "000006" "ZETA" 9 9;
    quoted "000007" "ETA" 11 12;
    quoted "300001" "THETA" 30 31;
    quoted "600000" "PF BANK" 9 11 ].

Definition watched (code : string) (buy_price : Z) : care_stock :=
  {| care_code := code;
     care_name := None;
     care_buy_price := of_int buy_price;
     care_start_time := "2025-01-02 15:30:00";
     care_current_price := None;
     care_main_net_ratio := None;
     care_today_change := None;
     care_remark := None |}.

Definition demo_care : list care_stock :=
  [ watched "600000" 10; watched "000002" 19; watched "300001" 29 ].

Definition demo_previous : list settled_stock :=
  [ {| settled_code := "000009"; settled_name := "IOTA";
       settled_buy_price := of_int 4;
       settled_start_time := "2024-12-30 15:30:00";
       settled_current_price := of_int 5;
       settled_main_net_ratio := of_int (-7);
       settled_today_change := of_int 2;
       settled_profit_loss := of_int 1;
       settled_remark := "settled earlier" |} ].

Definition demo_files : disk :=
  {| care_json := Stored demo_care;
     data_dir := [];
     result_json := Stored {| last_update := "2025-01-02 15:30:00";
                              settled_stocks := Some demo_previous |};
     result_md := Absent;
     write_fails := fun _ => false;
     cut_short := fun _ => false |}.

Definition demo_calendar : list date :=
  [ mk_date 2025 1 2; mk_date 2025 1 3; mk_date 2025 1 6 ].

(** The calendar call fails once and then succeeds. *)
Definition demo_provider : akshare :=
  {| tool_trade_date_hist_sina := [None; Some demo_calendar];
     stock_zh_a_spot_em := [Some demo_market];
     stock_main_fund_flow := [Some demo_ranking] |}.

Definition demo_world : world :=
  {| provider := demo_provider; files := demo_files; trace := [] |}.

(** A provider whose spot quotes fail three times in a row. *)
Definition demo_world_no_spot : world :=
  {| provider := {| tool_trade_date_hist_sina := [Some demo_calendar];
                    stock_zh_a_spot_em := [None; None; None;
                                           Some demo_market];
                    stock_main_fund_flow := [Some demo_ranking] |};
     files := demo_files;
     trace := [] |}.

(** A Friday that trades and the Saturday after it. *)
Definition demo_self : StockAnalyzer :=
  init (mk_datetime (mk_date 2025 1 3) 15 30 0)
       (mk_datetime (mk_date 2025 1 3) 15 30 1).

Definition demo_self_saturday : StockAnalyzer :=
  init (mk_datetime (mk_date 2025 1 4) 15 30 0)
       (mk_datetime (mk_date 2025 1 4) 15 30 1).

(** * Properties *)

(** ** Comparisons *)

Lemma Qltb_lt (a b : Q) : Qltb a b = true <-> (a < b)%Q.
Proof.
  unfold Qltb. rewrite negb_true_iff. split; intro H.
  - apply Qnot_le_lt. intro Hle. apply Qle_bool_iff in Hle. congruence.
  - destruct (Qle_bool b a) eqn:E; [|reflexivity].
    apply Qle_bool_iff in E. exfalso. exact (Qlt_not_le _ _ H E).
Qed.

Lemma Qltb_ge (a b : Q) : Qltb a b = false <-> (b <= a)%Q.
Proof.
  unfold Qltb. rewrite negb_false_iff. apply Qle_bool_iff.
Qed.

Lemma num_ge_not_lt (a b : num) : num_ge a b = true -> num_lt a b = false.
Proof.
  destruct a as [|x], b as [|y]; simpl; try discriminate.
  intro H. apply Qltb_ge. now apply Qle_bool_iff.
Qed.

Lemma num_lt_fin (a b : num) :
  num_lt a b = true -> exists x y, a = Fin x /\ b = Fin y /\ (x < y)%Q.
Proof.
  destruct a as [|x], b as [|y]; simpl; try discriminate.
  intro H. exists x, y. repeat split. now apply Qltb_lt.
Qed.

(** ** The loop over the watch list *)

Section Loop.

Variable str_float : num -> string.
Variable stock_data : spot_df.
Variable main_fund_flow_df : flow_df.

Local Abbreviation body :=
  (analyze_care_stock str_float stock_data main_fund_flow_df).

(** The two accumulators grow by what each iteration appends, in order. *)
Lemma care_loop_spec (care_stocks : list care_stock) :
  forall settled updated,
    care_loop str_float stock_data main_fund_flow_df care_stocks
      settled updated
    = (settled ++ flat_map (fun s => settled_of (body s)) care_stocks,
       updated ++ flat_map (fun s => watched_of (body s)) care_stocks).
Proof.
  induction care_stocks as [|stock rest IH]; intros settled updated; simpl.
  - now rewrite !app_nil_r.
  - destruct (body stock) as [s|c]; rewrite IH; simpl;
      now rewrite <- ?app_assoc.
Qed.

Lemma care_loop_settled (care_stocks : list care_stock) (s : settled_stock) :
  In s (fst (care_loop str_float stock_data main_fund_flow_df
               care_stocks [] []))
  <-> exists stock, In stock care_stocks /\ body stock = Settle s.
Proof.
  rewrite care_loop_spec. simpl. rewrite in_flat_map. split.
  - intros (stock & Hin & Hs). exists stock. split; [assumption|].
    destruct (body stock); simpl in Hs; [|contradiction].
    destruct Hs as [->|[]]. reflexivity.
  - intros (stock & Hin & Hs). exists stock. split; [assumption|].
    rewrite Hs. now left.
Qed.

Lemma care_loop_watched (care_stocks : list care_stock) (c : care_stock) :
  In c (snd (care_loop str_float stock_data main_fund_flow_df
               care_stocks [] []))
  <-> exists stock, In stock care_stocks /\ body stock = Watch c.
Proof.
  rewrite care_loop_spec. simpl. rewrite in_flat_map. split.
  - intros (stock & Hin & Hs). exists stock. split; [assumption|].
    destruct (body stock); simpl in Hs; [contradiction|].
    destruct Hs as [->|[]]. reflexivity.
  - intros (stock & Hin & Hs). exists stock. split; [assumption|].
    rewrite Hs. now left.
Qed.

(** Every verdict keeps the code of the stock it is about. *)
Lemma body_settle_code (stock : care_stock) (s : settled_stock) :
  body stock = Settle s -> settled_code s = care_code stock.
Proof.
  unfold analyze_care_stock, apply_rules.
  destruct (iloc0 _) as [row|]; [|discriminate].
  repeat match goal with
         | |- context [if ?b then _ else _] => destruct b
         end; intro H; inversion H; reflexivity.
Qed.

Lemma body_watch_code (stock c : care_stock) :
  body stock = Watch c -> care_code c = care_code stock.
Proof.
  unfold analyze_care_stock, apply_rules.
  destruct (iloc0 _) as [row|].
  - repeat match goal with
           | |- context [if ?b then _ else _] => destruct b
           end; intro H; inversion H; reflexivity.
  - intro H. inversion H. reflexivity.
Qed.

End Loop.

(** ** Settlement rules *)

Lemma profit_loss_break_even_spec (hp : option num) (cur buy : num) :
  profit_loss_break_even hp cur buy
  = match hp with
    | Some h => if num_truthy h && num_gt h buy
                then of_int 0 else num_sub cur buy
    | None => num_sub cur buy
    end.
Proof.
  destruct hp as [h|]; simpl; [|reflexivity].
  now destruct (num_truthy h), (num_gt h buy).
Qed.

(** A day high above a buy price that is not negative is not zero. *)
Lemma high_above_nonnegative_truthy (h buy : num) :
  num_ge buy (of_int 0) = true -> num_gt h buy = true ->
  num_truthy h = true.
Proof.
  destruct h as [|x], buy as [|y]; simpl; try discriminate; try reflexivity.
  intros Hy Hx. apply Qle_bool_iff in Hy. apply Qltb_lt in Hx.
  apply negb_true_iff. destruct (Qeq_bool x 0) eqn:E; [|reflexivity].
  apply Qeq_bool_iff in E. exfalso. rewrite E in Hx.
  apply (Qlt_not_le _ _ Hx). exact Hy.
Qed.

Section Rules.

Variable str_float : num -> string.
Variable stock_data : spot_df.
Variable main_fund_flow_df : flow_df.

Local Abbreviation body :=
  (analyze_care_stock str_float stock_data main_fund_flow_df).
Local Abbreviation loop :=
  (care_loop str_float stock_data main_fund_flow_df).

(** Entries with the same code get the same matched row. *)
Lemma body_matched (stock : care_stock) (row : flow_row) :
  iloc0 (flow_with_code main_fund_flow_df (care_code stock)) = Some row ->
  body stock
  = apply_rules str_float
      (highest_price_of stock_data (care_code stock)) stock row.
Proof.
  intro H. unfold analyze_care_stock. now rewrite H.
Qed.

Lemma remark_ratio_below_differs (a b : num) :
  remark_ratio_below str_float a <> remark_change_above_0 str_float b.
Proof.
  unfold remark_ratio_below, remark_change_above_0. simpl. discriminate.
Qed.

(** C1. A watched stock whose matched row satisfies the conditions of
    rule 1 (ratio below -5) and of rule 3 (change above 0, ratio below 0)
    is settled by rule 1: a record with the stock's code, buy price and
    start time, the row's name, price, ratio and change, rule 1's profit
    and rule 1's remark, spelled out, is appended to the settlements;
    every settlement for that code carries that remark and not rule 3's,
    and no entry with that code stays in the watch list. *)
Theorem rule_1_wins_over_rule_3
  (care_stocks : list care_stock) (stock : care_stock) (row : flow_row) :
  In stock care_stocks ->
  iloc0 (flow_with_code main_fund_flow_df (care_code stock)) = Some row ->
  num_lt (flow_main_net_ratio row) (of_int (-5)) = true ->
  num_gt (flow_today_change row) (of_int 0) = true ->
  num_lt (flow_main_net_ratio row) (of_int 0) = true ->
  (exists s,
     In s (fst (loop care_stocks [] []))
     /\ settled_code s = care_code stock
     /\ settled_name s = flow_name row
     /\ settled_buy_price s = care_buy_price stock
     /\ settled_start_time s = care_start_time stock
     /\ settled_current_price s = flow_latest_price row
     /\ settled_main_net_ratio s = flow_main_net_ratio row
     /\ settled_today_change s = flow_today_change row
     /\ settled_profit_loss s
        = match highest_price_of stock_data (care_code stock) with
          | Some h =>
              if num_truthy h && num_gt h (care_buy_price stock)
              then of_int 0
              else num_sub (flow_latest_price row) (care_buy_price stock)
          | None => num_sub (flow_latest_price row) (care_buy_price stock)
          end
     /\ settled_remark s
        = ("主力净占比" ++ str_float (flow_main_net_ratio row)
             ++ "%小于-5%，触发卖出条件")%string)
  /\ (forall s, In s (fst (loop care_stocks [] [])) ->
         settled_code s = care_code stock ->
         settled_remark s
           = ("主力净占比" ++ str_float (flow_main_net_ratio row)
                ++ "%小于-5%，触发卖出条件")%string
         /\ settled_remark s
           <> ("今日涨幅" ++ str_float (flow_main_net_ratio row)
                 ++ "%大于0%，且主力净占比"
                 ++ str_float (flow_main_net_ratio row)
                 ++ "%小于0%，触发卖出条件")%string)
  /\ (forall c, In c (snd (loop care_stocks [] [])) ->
         care_code c <> care_code stock).
Proof.
  intros Hin Hrow H1 _ _.
  assert (Hsame : forall stock', care_code stock' = care_code stock ->
            body stock'
            = Settle (settle stock' row
                 (profit_loss_break_even
                    (highest_price_of stock_data (care_code stock'))
                    (flow_latest_price row) (care_buy_price stock'))
                 (remark_ratio_below str_float (flow_main_net_ratio row)))).
  { intros stock' Hc. rewrite (body_matched stock' row) by now rewrite Hc.
    unfold apply_rules. now rewrite H1. }
  split; [|split].
  - eexists. split.
    + apply care_loop_settled. exists stock. split; [assumption|].
      now apply Hsame.
    + simpl. rewrite profit_loss_break_even_spec.
      repeat split; reflexivity.
  - intros s Hs Hcode. apply care_loop_settled in Hs.
    destruct Hs as (stock' & _ & Hb).
    pose proof (body_settle_code _ _ _ _ _ Hb) as Hc.
    rewrite Hsame in Hb by congruence. inversion Hb; subst s. simpl.
    split; [reflexivity|]. unfold remark_ratio_below. simpl. discriminate.
  - intros c Hc Hcode. apply care_loop_watched in Hc.
    destruct Hc as (stock' & _ & Hb).
    pose proof (body_watch_code _ _ _ _ _ Hb) as Hc'.
    rewrite Hsame in Hb by congruence. discriminate.
Qed.

(** What rules 1 and 3 compute, the truth test of the day high
    included: the profit is 0 when the day high is found in the spot
    table, passes [if highest_price:] and is strictly above the buy
    price; in every other case it is the current price minus the buy
    price. *)
Theorem break_even_override_when_high_nonzero
  (care_stocks : list care_stock) (stock : care_stock) (row : flow_row) :
  In stock care_stocks ->
  iloc0 (flow_with_code main_fund_flow_df (care_code stock)) = Some row ->
  (num_lt (flow_main_net_ratio row) (of_int (-5)) = true
   \/ (num_gt (flow_today_change row) (of_int 10) = false
       /\ num_gt (flow_today_change row) (of_int 0) = true
       /\ num_lt (flow_main_net_ratio row) (of_int 0) = true)) ->
  exists s,
    body stock = Settle s
    /\ In s (fst (loop care_stocks [] []))
    /\ settled_profit_loss s
       = match highest_price_of stock_data (care_code stock) with
         | Some h =>
             if num_truthy h && num_gt h (care_buy_price stock)
             then of_int 0
             else num_sub (flow_latest_price row) (care_buy_price stock)
         | None => num_sub (flow_latest_price row) (care_buy_price stock)
         end.
Proof.
  intros Hin Hrow Hrule.
  pose proof profit_loss_break_even_spec as Hp.
  assert (Hs : exists remark,
             body stock
             = Settle (settle stock row
                 (profit_loss_break_even
                    (highest_price_of stock_data (care_code stock))
                    (flow_latest_price row) (care_buy_price stock))
                 remark)).
  { rewrite (body_matched stock row Hrow). unfold apply_rules.
    destruct (num_lt (flow_main_net_ratio row) (of_int (-5))) eqn:E1.
    - eexists. reflexivity.
    - destruct Hrule as [Hr|(H2 & H3 & H4)]; [discriminate|].
      rewrite H2, H3, H4. simpl. eexists. reflexivity. }
  destruct Hs as (remark & Hs). eexists. split; [exact Hs|]. split.
  - apply care_loop_settled. exists stock. now split.
  - simpl. apply Hp.
Qed.

(** C4. A watched stock whose matched row has a ratio of at least -5 and
    a change above 10 is settled by rule 2: the profit is the current
    price minus the buy price whatever the day high is, and the remark
    interpolates the main net ratio into the 10% message. *)
Theorem rule_2_plain_profit_and_ratio_remark
  (care_stocks : list care_stock) (stock : care_stock) (row : flow_row) :
  In stock care_stocks ->
  iloc0 (flow_with_code main_fund_flow_df (care_code stock)) = Some row ->
  num_ge (flow_main_net_ratio row) (of_int (-5)) = true ->
  num_gt (flow_today_change row) (of_int 10) = true ->
  exists s,
    body stock = Settle s
    /\ In s (fst (loop care_stocks [] []))
    /\ settled_profit_loss s
       = num_sub (flow_latest_price row) (care_buy_price stock)
    /\ settled_remark s
       = ("今日涨幅" ++ str_float (flow_main_net_ratio row)
            ++ "%大于10%，触发卖出条件")%string
    /\ settled_code s = care_code stock
    /\ settled_buy_price s = care_buy_price stock
    /\ settled_start_time s = care_start_time stock
    /\ settled_current_price s = flow_latest_price row
    /\ settled_main_net_ratio s = flow_main_net_ratio row
    /\ settled_today_change s = flow_today_change row.
Proof.
  intros Hin Hrow Hge Hgt.
  assert (Hs : body stock
               = Settle (settle stock row
                   (num_sub (flow_latest_price row) (care_buy_price stock))
                   (remark_change_above_10 str_float
                      (flow_main_net_ratio row)))).
  { rewrite (body_matched stock row Hrow). unfold apply_rules.
    now rewrite (num_ge_not_lt _ _ Hge), Hgt. }
  eexists. split; [exact Hs|]. split.
  - apply care_loop_settled. exists stock. now split.
  - simpl. repeat split; reflexivity.
Qed.

(** For a buy price that is not negative the truth test of the day
    high is implied: the override applies exactly when the day high is
    found and above the buy price. *)
Corollary break_even_override_nonnegative_buy_price
  (stock : care_stock) (row : flow_row) :
  iloc0 (flow_with_code main_fund_flow_df (care_code stock)) = Some row ->
  num_ge (care_buy_price stock) (of_int 0) = true ->
  (num_lt (flow_main_net_ratio row) (of_int (-5)) = true
   \/ (num_gt (flow_today_change row) (of_int 10) = false
       /\ num_gt (flow_today_change row) (of_int 0) = true
       /\ num_lt (flow_main_net_ratio row) (of_int 0) = true)) ->
  exists s,
    body stock = Settle s
    /\ settled_profit_loss s
       = match highest_price_of stock_data (care_code stock) with
         | Some h =>
             if num_gt h (care_buy_price stock)
             then of_int 0
             else num_sub (flow_latest_price row) (care_buy_price stock)
         | None => num_sub (flow_latest_price row) (care_buy_price stock)
         end.
Proof.
  intros Hrow Hbuy Hrule.
  assert (Hs : exists remark,
             body stock
             = Settle (settle stock row
                 (profit_loss_break_even
                    (highest_price_of stock_data (care_code stock))
                    (flow_latest_price row) (care_buy_price stock))
                 remark)).
  { rewrite (body_matched stock row Hrow). unfold apply_rules.
    destruct (num_lt (flow_main_net_ratio row) (of_int (-5))) eqn:E1.
    - eexists. reflexivity.
    - destruct Hrule as [Hr|(H2 & H3 & H4)]; [discriminate|].
      rewrite H2, H3, H4. simpl. eexists. reflexivity. }
  destruct Hs as (remark & Hs). eexists. split; [exact Hs|]. simpl.
  rewrite profit_loss_break_even_spec.
  destruct (highest_price_of stock_data (care_code stock)) as [h|];
    [|reflexivity].
  destruct (num_gt h (care_buy_price stock)) eqn:E.
  - now rewrite (high_above_nonnegative_truthy _ _ Hbuy E).
  - now rewrite andb_false_r.
Qed.

End Rules.

(** The rule-2 profit ignores a day high above the buy price, and the
    remark shows the ratio (3/1), not the change (11/1). *)
Example rule_2_demo :
  analyze_care_stock str_fraction
    (demo_spot (of_int 12) (of_int 13))
    (demo_flow (of_int 12) (of_int 3) (of_int 11))
    (demo_stock (of_int 10))
  = Settle {| settled_code := "600000";
              settled_name := "PF BANK";
              settled_buy_price := of_int 10;
              settled_start_time := "2025-01-02 15:30:00";
              settled_current_price := of_int 12;
              settled_main_net_ratio := of_int 3;
              settled_today_change := of_int 11;
              settled_profit_loss := Fin (2 # 1);
              settled_remark := "今日涨幅3/1%大于10%，触发卖出条件" |}.
Proof. vm_compute. reflexivity. Qed.


Lemma rule_1_wins_over_rule_3_witness :
  exists s,
    In s (fst (care_loop str_fraction (demo_spot (of_int 9) (of_int 9))
                 (demo_flow (of_int 9) (of_int (-6)) (of_int 1))
                 [demo_stock (of_int 10)] [] []))
    /\ settled_profit_loss s = Fin (-1 # 1)
    /\ settled_remark s = "主力净占比-6/1%小于-5%，触发卖出条件".
Proof.
  destruct (rule_1_wins_over_rule_3 str_fraction
              (demo_spot (of_int 9) (of_int 9))
              (demo_flow (of_int 9) (of_int (-6)) (of_int 1))
              [demo_stock (of_int 10)] (demo_stock (of_int 10))
              {| flow_code := "600000"; flow_name := "PF BANK";
                 flow_latest_price := of_int 9;
                 flow_main_net_ratio := of_int (-6);
                 flow_today_change := of_int 1 |})
    as ((s & Hin & _ & _ & _ & _ & _ & _ & _ & Hp & Hr) & _).
  - simpl. left. reflexivity.
  - vm_compute. reflexivity.
  - vm_compute. reflexivity.
  - vm_compute. reflexivity.
  - vm_compute. reflexivity.
  - exists s. split; [exact Hin|]. split.
    + rewrite Hp. vm_compute. reflexivity.
    + rewrite Hr. vm_compute. reflexivity.
Defined.

Lemma break_even_override_when_high_nonzero_witness :
  let stock := demo_stock (of_int 10) in
  let row := {| flow_code := "600000"; flow_name := "PF BANK";
                flow_latest_price := of_int 9;
                flow_main_net_ratio := of_int (-6);
                flow_today_change := of_int 1 |} in
  exists s,
    analyze_care_stock str_fraction (demo_spot (of_int 9) (of_int 11))
      [row] stock = Settle s
    /\ settled_profit_loss s = of_int 0.
Proof.
  intros stock row.
  destruct (break_even_override_when_high_nonzero str_fraction
              (demo_spot (of_int 9) (of_int 11)) [row] [stock] stock row)
    as (s & Hs & _ & Hp).
  - simpl. left. reflexivity.
  - vm_compute. reflexivity.
  - left. vm_compute. reflexivity.
  - exists s. split; [exact Hs|]. rewrite Hp. vm_compute. reflexivity.
Defined.

Lemma rule_2_plain_profit_and_ratio_remark_witness :
  let stock := demo_stock (of_int 10) in
  let row := {| flow_code := "600000"; flow_name := "PF BANK";
                flow_latest_price := of_int 12;
                flow_main_net_ratio := of_int 3;
                flow_today_change := of_int 11 |} in
  exists s,
    analyze_care_stock str_fraction (demo_spot (of_int 12) (of_int 13))
      [row] stock = Settle s
    /\ settled_profit_loss s = num_sub (of_int 12) (of_int 10)
    /\ settled_remark s = "今日涨幅3/1%大于10%，触发卖出条件".
Proof.
  intros stock row.
  destruct (rule_2_plain_profit_and_ratio_remark str_fraction
              (demo_spot (of_int 12) (of_int 13)) [row] [stock] stock row)
    as (s & Hs & _ & Hp & Hr & _).
  - simpl. left. reflexivity.
  - vm_compute. reflexivity.
  - vm_compute. reflexivity.
  - vm_compute. reflexivity.
  - exists s. split; [exact Hs|]. split; [exact Hp|].
    rewrite Hr. vm_compute. reflexivity.
Defined.

(** ** Adding the candidates *)

Lemma already_watched_iff (updated : list care_stock) (code : string) :
  already_watched updated code = true <-> In code (map care_code updated).
Proof.
  unfold already_watched. rewrite existsb_exists, in_map_iff. split.
  - intros (c & Hin & Heq). apply String.eqb_eq in Heq. now exists c.
  - intros (c & Heq & Hin). exists c. split; [assumption|].
    now apply String.eqb_eq.
Qed.

Lemma flow_with_code_nonempty (df : flow_df) (r : flow_row) :
  In r df -> flow_with_code df (flow_code r) <> [].
Proof.
  intros Hin Hnil.
  assert (H : In r (flow_with_code df (flow_code r))).
  { apply filter_In. split; [assumption | apply String.eqb_refl]. }
  rewrite Hnil in H. contradiction.
Qed.

(** The codes of [top_5_stocks] are codes of rows of the frame they are
    taken from, so the unguarded [.iloc[0]] always finds a row. *)
Lemma top_5_stocks_in_frame (result_df : flow_df) (code : string) :
  In code (top_5_stocks result_df) -> flow_with_code result_df code <> [].
Proof.
  unfold top_5_stocks. destruct (5 <=? List.length result_df)%nat;
    [|contradiction].
  rewrite in_map_iff. intros (r & <- & Hin).
  apply flow_with_code_nonempty.
  rewrite <- (firstn_skipn 5 result_df). apply in_or_app. now left.
Qed.

Section Candidates.

Variable current_time : string.
Variable stock_data : spot_df.
Variable result_df : flow_df.

(** The candidate loop only appends; what it appends has fresh, pairwise
    distinct codes drawn from the candidates. *)
Lemma add_top_stocks_spec (top_5 : list string) :
  (forall code, In code top_5 -> flow_with_code result_df code <> []) ->
  forall updated,
  exists added,
    add_top_stocks current_time stock_data result_df top_5 updated
    = Ok (updated ++ added)
    /\ (forall c, In c added ->
          In (care_code c) top_5
          /\ ~ In (care_code c) (map care_code updated))
    /\ NoDup (map care_code added).
Proof.
  induction top_5 as [|code rest IH]; intros Hrows updated; simpl.
  - exists []. rewrite app_nil_r. repeat split; try contradiction.
    constructor.
  - assert (Hrest : forall c, In c rest -> flow_with_code result_df c <> [])
      by (intros c Hc; apply Hrows; now right).
    destruct (already_watched updated code) eqn:Hw.
    + destruct (IH Hrest updated) as (added & -> & Hadd & Hnd).
      exists added. repeat split; try assumption.
      * right. now apply Hadd.
      * now apply Hadd.
    + destruct (iloc0 (spot_with_code stock_data code)) as [info|].
      * destruct (iloc0 (flow_with_code result_df code)) as [row|] eqn:Hrow.
        2:{ exfalso. apply (Hrows code); [now left|].
            destruct (flow_with_code result_df code); [reflexivity|].
            discriminate. }
        destruct (IH Hrest
                    (updated ++ [new_stock current_time code info row]))
          as (added & -> & Hadd & Hnd).
        exists (new_stock current_time code info row :: added).
        rewrite <- app_assoc. simpl. split; [reflexivity|]. split.
        -- intros c [<-|Hc]; simpl.
           ++ split; [now left|]. intro Hin.
              apply already_watched_iff in Hin. congruence.
           ++ destruct (Hadd c Hc) as (H1 & H2). split; [now right|].
              intro Hin. apply H2. rewrite map_app, in_app_iff. now left.
        -- constructor; [|assumption]. intro Hin.
           apply in_map_iff in Hin. destruct Hin as (c & Heq & Hc).
           destruct (Hadd c Hc) as (_ & H2). apply H2.
           rewrite map_app, in_app_iff. right. simpl. left.
           now rewrite Heq.
      * destruct (IH Hrest updated) as (added & -> & Hadd & Hnd).
        exists added. repeat split; try assumption.
        -- right. now apply Hadd.
        -- now apply Hadd.
Qed.

End Candidates.

(** ** The evaluator as a whole *)

Section Evaluate.

Variable str_float : num -> string.
Variable current_time : string.
Variable stock_data : spot_df.
Variable result_df main_fund_flow_df : flow_df.

Local Abbreviation body :=
  (analyze_care_stock str_float stock_data main_fund_flow_df).

(** The evaluator never raises: it returns the settlements of the loop
    and the watched entries of the loop followed by the new candidates. *)
Lemma evaluate_spec (care_stocks : list care_stock) :
  exists added,
    evaluate str_float current_time care_stocks stock_data result_df
      main_fund_flow_df
    = Ok (flat_map (fun s => settled_of (body s)) care_stocks,
          flat_map (fun s => watched_of (body s)) care_stocks ++ added)
    /\ (forall c, In c added ->
          In (care_code c) (top_5_stocks result_df)
          /\ ~ In (care_code c)
               (map care_code
                  (flat_map (fun s => watched_of (body s)) care_stocks)))
    /\ NoDup (map care_code added).
Proof.
  unfold evaluate. rewrite care_loop_spec. simpl.
  destruct (add_top_stocks_spec current_time stock_data result_df
              (top_5_stocks result_df) (top_5_stocks_in_frame result_df)
              (flat_map (fun s => watched_of (body s)) care_stocks))
    as (added & -> & Hadd & Hnd).
  exists added. split; [reflexivity|]. split; assumption.
Qed.

Lemma watched_codes_sublist (care_stocks : list care_stock) :
  forall code,
    In code (map care_code
               (flat_map (fun s => watched_of (body s)) care_stocks)) ->
    In code (map care_code care_stocks).
Proof.
  intros code Hin. apply in_map_iff in Hin. destruct Hin as (c & <- & Hc).
  apply in_flat_map in Hc. destruct Hc as (stock & Hs & Hc).
  destruct (body stock) as [s|c'] eqn:Hb; simpl in Hc; [contradiction|].
  destruct Hc as [->|[]]. apply in_map_iff. exists stock. split; [|assumption].
  symmetry. eapply body_watch_code. eassumption.
Qed.

Lemma watched_codes_nodup (care_stocks : list care_stock) :
  NoDup (map care_code care_stocks) ->
  NoDup (map care_code
           (flat_map (fun s => watched_of (body s)) care_stocks)).
Proof.
  induction care_stocks as [|stock rest IH]; simpl; intro Hnd.
  - constructor.
  - inversion Hnd as [|? ? Hnotin Hnd']; subst.
    destruct (body stock) as [s|c] eqn:Hb; simpl; [now apply IH|].
    constructor; [|now apply IH]. intro Hin.
    apply watched_codes_sublist in Hin. apply Hnotin.
    now rewrite <- (body_watch_code _ _ _ _ _ Hb).
Qed.

Lemma NoDup_app_disjoint {A : Type} (l1 l2 : list A) :
  NoDup l1 -> NoDup l2 -> (forall x, In x l2 -> ~ In x l1) ->
  NoDup (l1 ++ l2).
Proof.
  induction l1 as [|a l1 IH]; simpl; intros H1 H2 Hd; [assumption|].
  inversion H1; subst. constructor.
  - rewrite in_app_iff. intros [Hin|Hin]; [contradiction|].
    apply (Hd a Hin). now left.
  - apply IH; try assumption. intros x Hx Hin. apply (Hd x Hx). now right.
Qed.

(** C10. From a watch list with pairwise distinct codes the evaluator
    returns, without raising, an updated watch list with pairwise
    distinct codes. *)
Theorem updated_codes_stay_distinct (care_stocks : list care_stock) :
  NoDup (map care_code care_stocks) ->
  exists settled updated,
    evaluate str_float current_time care_stocks stock_data result_df
      main_fund_flow_df = Ok (settled, updated)
    /\ NoDup (map care_code updated).
Proof.
  intro Hnd. destruct (evaluate_spec care_stocks) as (added & -> & Hadd & Hna).
  eexists. eexists. split; [reflexivity|].
  rewrite map_app. apply NoDup_app_disjoint.
  - now apply watched_codes_nodup.
  - assumption.
  - intros code Hin. apply in_map_iff in Hin.
    destruct Hin as (c & <- & Hc). now apply Hadd.
Qed.

(** C5. A watched stock whose code is on no row of the fund-flow table
    is appended to the updated watch list as it is, whatever the spot
    table holds; no settlement is produced for its code, and every entry
    of the updated list with that code is an entry of the input. *)
Theorem absent_from_ranking_carried_unchanged
  (care_stocks : list care_stock) (stock : care_stock) :
  In stock care_stocks ->
  (forall r, In r main_fund_flow_df -> flow_code r <> care_code stock) ->
  body stock = Watch stock
  /\ exists settled updated,
       evaluate str_float current_time care_stocks stock_data result_df
         main_fund_flow_df = Ok (settled, updated)
       /\ In stock updated
       /\ (forall s, In s settled -> settled_code s <> care_code stock)
       /\ (forall c, In c updated -> care_code c = care_code stock ->
             In c care_stocks).
Proof.
  intros Hin Habs.
  assert (Hsame : forall stock', care_code stock' = care_code stock ->
                    body stock' = Watch stock').
  { intros stock' Hc. unfold analyze_care_stock.
    replace (flow_with_code main_fund_flow_df (care_code stock')) with
      (@nil flow_row); [reflexivity|].
    symmetry. unfold flow_with_code.
    destruct (filter _ main_fund_flow_df) as [|r l] eqn:Hf; [reflexivity|].
    assert (Hr : In r (r :: l)) by now left.
    rewrite <- Hf in Hr. apply filter_In in Hr. destruct Hr as (Hr & Heq).
    apply String.eqb_eq in Heq. exfalso. apply (Habs r Hr). congruence. }
  split; [now apply Hsame|].
  destruct (evaluate_spec care_stocks) as (added & -> & Hadd & _).
  eexists. eexists. split; [reflexivity|].
  assert (Hw : In stock
                 (flat_map (fun s => watched_of (body s)) care_stocks)).
  { apply in_flat_map. exists stock. split; [assumption|].
    rewrite Hsame by reflexivity. now left. }
  split; [|split].
  - apply in_app_iff. now left.
  - intros s Hs Hcode. apply in_flat_map in Hs.
    destruct Hs as (stock' & _ & Hs).
    destruct (body stock') as [s'|c] eqn:Hb; simpl in Hs; [|contradiction].
    destruct Hs as [->|[]].
    pose proof (body_settle_code _ _ _ _ _ Hb) as Hc.
    rewrite Hsame in Hb by congruence. discriminate.
  - intros c Hc Hcode. apply in_app_iff in Hc. destruct Hc as [Hc|Hc].
    + apply in_flat_map in Hc. destruct Hc as (stock' & Hs' & Hc).
      destruct (body stock') as [s'|c'] eqn:Hb; simpl in Hc; [contradiction|].
      destruct Hc as [->|[]].
      pose proof (body_watch_code _ _ _ _ _ Hb) as Hc'.
      rewrite Hsame in Hb by congruence. now inversion Hb; subst.
    + exfalso. apply (Hadd c Hc). rewrite Hcode.
      apply in_map. exact Hw.
Qed.

End Evaluate.

(** ** The retrying fetch *)

Section Fetch.

Context {A : Type}.
Variable call : M (option A).
Variable method : ak_method.
Variable replies : akshare -> list (option A).

(** What a provider operation does: it answers with the next scripted
    reply, records the call and touches no file. *)
Hypothesis call_files : forall w, files (snd (call w)) = files w.
Hypothesis call_trace :
  forall w, trace (snd (call w)) = trace w ++ [Called method].
Hypothesis call_reply :
  forall w, fst (call w) = first_success (firstn 1 (replies (provider w))).
Hypothesis call_rest :
  forall w, replies (provider (snd (call w))) = tl (replies (provider w)).

Lemma fetch_attempts_files (max_retries retry_delay : nat)
  (attempts : list nat) :
  forall w,
    files (snd (fetch_attempts call max_retries retry_delay attempts w))
    = files w.
Proof.
  induction attempts as [|attempt rest IH]; intro w; simpl; [reflexivity|].
  unfold bind. pose proof (call_files w) as Hf.
  destruct (call w) as [[data|] w1]; simpl in *; [assumption|].
  destruct (attempt <? max_retries - 1)%nat; simpl; rewrite IH; assumption.
Qed.

Lemma fetch_attempts_trace (max_retries retry_delay : nat)
  (attempts : list nat) :
  forall w,
  exists evs,
    trace (snd (fetch_attempts call max_retries retry_delay attempts w))
    = trace w ++ evs
    /\ Forall (fun e => e = Called method \/ exists n, e = Slept n) evs.
Proof.
  induction attempts as [|attempt rest IH]; intro w; simpl.
  - exists []. rewrite app_nil_r. split; [reflexivity | constructor].
  - unfold bind. pose proof (call_trace w) as Ht.
    destruct (call w) as [[data|] w1]; simpl in *.
    + exists [Called method]. split; [assumption|].
      constructor; [now left | constructor].
    + destruct (attempt <? max_retries - 1)%nat; simpl.
      * match goal with
        | |- context [fetch_attempts _ _ _ _ ?w2] =>
            destruct (IH w2) as (evs & -> & Hall)
        end.
        simpl. rewrite Ht. rewrite <- !app_assoc. simpl.
        eexists. split; [reflexivity|].
        constructor; [now left|]. constructor; [right; eauto | assumption].
      * destruct (IH w1) as (evs & -> & Hall). rewrite Ht.
        rewrite <- app_assoc. simpl. eexists. split; [reflexivity|].
        constructor; [now left | assumption].
Qed.

Lemma fetch_attempts_reply (max_retries retry_delay : nat)
  (attempts : list nat) :
  forall w,
    fst (fetch_attempts call max_retries retry_delay attempts w)
    = first_success (firstn (List.length attempts) (replies (provider w))).
Proof.
  induction attempts as [|attempt rest IH]; intro w; simpl; [reflexivity|].
  unfold bind. pose proof (call_reply w) as Hr. pose proof (call_rest w) as Ht.
  destruct (call w) as [[data|] w1]; simpl in *.
  - destruct (replies (provider w)) as [|[a|] l]; simpl in *;
      try discriminate. assumption.
  - assert (Hl : first_success
                   (firstn (S (List.length rest)) (replies (provider w)))
                 = first_success
                     (firstn (List.length rest) (replies (provider w1)))).
    { rewrite Ht. destruct (replies (provider w)) as [|[a|] l]; simpl in *;
        try discriminate; try reflexivity. now destruct (List.length rest). }
    destruct (attempt <? max_retries - 1)%nat; simpl; rewrite IH; simpl;
      symmetry; exact Hl.
Qed.

End Fetch.

(** ** The provider operations and the stages built on them *)

Ltac provider_call :=
  intro w;
  unfold ak_tool_trade_date_hist_sina, ak_stock_zh_a_spot_em,
    ak_stock_main_fund_flow, bind, set_provider, emit, ret;
  simpl;
  match goal with
  | |- context [match ?l with [] => _ | _ :: _ => _ end] =>
      destruct l as [|[?|] ?]; reflexivity
  end.

Lemma calendar_call_files :
  forall w, files (snd (ak_tool_trade_date_hist_sina w)) = files w.
Proof. provider_call. Qed.

Lemma calendar_call_trace :
  forall w, trace (snd (ak_tool_trade_date_hist_sina w))
            = trace w ++ [Called Trade_calendar].
Proof. provider_call. Qed.

Lemma calendar_call_reply :
  forall w, fst (ak_tool_trade_date_hist_sina w)
            = first_success
                (firstn 1 (tool_trade_date_hist_sina (provider w))).
Proof. provider_call. Qed.

Lemma calendar_call_rest :
  forall w, tool_trade_date_hist_sina
              (provider (snd (ak_tool_trade_date_hist_sina w)))
            = tl (tool_trade_date_hist_sina (provider w)).
Proof. provider_call. Qed.

Lemma spot_call_files :
  forall w, files (snd (ak_stock_zh_a_spot_em w)) = files w.
Proof. provider_call. Qed.

Lemma spot_call_reply :
  forall w, fst (ak_stock_zh_a_spot_em w)
            = first_success (firstn 1 (stock_zh_a_spot_em (provider w))).
Proof. provider_call. Qed.

Lemma spot_call_rest :
  forall w, stock_zh_a_spot_em (provider (snd (ak_stock_zh_a_spot_em w)))
            = tl (stock_zh_a_spot_em (provider w)).
Proof. provider_call. Qed.

Lemma flow_call_files :
  forall w, files (snd (ak_stock_main_fund_flow w)) = files w.
Proof. provider_call. Qed.

Lemma flow_call_reply :
  forall w, fst (ak_stock_main_fund_flow w)
            = first_success (firstn 1 (stock_main_fund_flow (provider w))).
Proof. provider_call. Qed.

Lemma flow_call_rest :
  forall w, stock_main_fund_flow (provider (snd (ak_stock_main_fund_flow w)))
            = tl (stock_main_fund_flow (provider w)).
Proof. provider_call. Qed.

Lemma get_trade_calendar_reply (w : world) :
  fst (get_trade_calendar w)
  = first_success (firstn 3 (tool_trade_date_hist_sina (provider w))).
Proof.
  unfold get_trade_calendar, fetch_data_by_ak.
  now rewrite (fetch_attempts_reply _ _ calendar_call_reply
                 calendar_call_rest).
Qed.

Lemma get_stock_data_reply (w : world) :
  fst (get_stock_data w)
  = first_success (firstn 3 (stock_zh_a_spot_em (provider w))).
Proof.
  unfold get_stock_data, fetch_data_by_ak.
  now rewrite (fetch_attempts_reply _ _ spot_call_reply spot_call_rest).
Qed.

Lemma is_trading_day_world (self : StockAnalyzer) (w : world) :
  snd (is_trading_day self w) = snd (get_trade_calendar w).
Proof.
  unfold is_trading_day, bind.
  now destruct (get_trade_calendar w) as [[cal|] w1].
Qed.

Lemma is_trading_day_value (self : StockAnalyzer) (w : world) :
  fst (is_trading_day self w)
  = match fst (get_trade_calendar w) with
    | Some cal => existsb (String.eqb (today self)) (map isoformat cal)
    | None => false
    end.
Proof.
  unfold is_trading_day, bind.
  now destruct (get_trade_calendar w) as [[cal|] w1].
Qed.

Lemma is_trading_day_files (self : StockAnalyzer) (w : world) :
  files (snd (is_trading_day self w)) = files w.
Proof.
  rewrite is_trading_day_world. unfold get_trade_calendar, fetch_data_by_ak.
  apply fetch_attempts_files. exact calendar_call_files.
Qed.

Lemma is_trading_day_trace (self : StockAnalyzer) (w : world) :
  exists evs,
    trace (snd (is_trading_day self w)) = trace w ++ evs
    /\ Forall (fun e => e = Called Trade_calendar \/ exists n, e = Slept n)
         evs.
Proof.
  rewrite is_trading_day_world. unfold get_trade_calendar, fetch_data_by_ak.
  apply fetch_attempts_trace. exact calendar_call_trace.
Qed.

Lemma get_stock_data_files (w : world) :
  files (snd (get_stock_data w)) = files w.
Proof.
  unfold get_stock_data, fetch_data_by_ak.
  apply fetch_attempts_files. exact spot_call_files.
Qed.

Lemma fetch_fund_flow_files (w : world) :
  files (snd (fetch_data_by_ak ak_stock_main_fund_flow 3 25 w)) = files w.
Proof.
  unfold fetch_data_by_ak. apply fetch_attempts_files. exact flow_call_files.
Qed.

Lemma load_care_stocks_run (w : world) :
  load_care_stocks w = (fst (load_care_stocks w), w).
Proof.
  unfold load_care_stocks, bind, read_files, ret.
  now destruct (care_json (files w)).
Qed.

Lemma load_previous_settlements_run (w : world) :
  load_previous_settlements w = (fst (load_previous_settlements w), w).
Proof.
  unfold load_previous_settlements, bind, read_files, ret.
  destruct (result_json (files w)) as [| |data]; try reflexivity.
  now destruct (settled_stocks data).
Qed.

Lemma load_care_stocks_files (w w' : world) :
  files w' = files w -> fst (load_care_stocks w') = fst (load_care_stocks w).
Proof.
  intro H. unfold load_care_stocks, bind, read_files, ret. rewrite H.
  now destruct (care_json (files w)).
Qed.

Lemma load_previous_settlements_files (w w' : world) :
  files w' = files w ->
  fst (load_previous_settlements w') = fst (load_previous_settlements w).
Proof.
  intro H. unfold load_previous_settlements, bind, read_files, ret.
  rewrite H. destruct (result_json (files w)) as [| |data]; try reflexivity.
  now destruct (settled_stocks data).
Qed.

(** ** Dates *)

Lemma digit_inj (a b : nat) : digit a = digit b -> a mod 10 = b mod 10.
Proof.
  unfold digit. intro H. apply (f_equal nat_of_ascii) in H.
  pose proof (Nat.mod_upper_bound a 10). pose proof (Nat.mod_upper_bound b 10).
  rewrite !nat_ascii_embedding in H by lia. lia.
Qed.

Lemma two_digits_inj (n m : nat) :
  n < 100 -> m < 100 -> two_digits n = two_digits m -> n = m.
Proof.
  intros Hn Hm H. unfold two_digits in H. injection H as H1 H2.
  apply digit_inj in H1, H2.
  change (fst (Nat.divmod n 9 0 9)) with (n / 10) in H1.
  change (fst (Nat.divmod m 9 0 9)) with (m / 10) in H1.
  rewrite (Nat.div_mod_eq n 10), (Nat.div_mod_eq m 10).
  rewrite (Nat.mod_small (n / 10)) in H1 by (apply Nat.Div0.div_lt_upper_bound; lia).
  rewrite (Nat.mod_small (m / 10)) in H1 by (apply Nat.Div0.div_lt_upper_bound; lia).
  lia.
Qed.

Lemma four_digits_expand (k : nat) :
  k / 1000 < 10 ->
  k = 1000 * ((k / 1000) mod 10) + 100 * ((k / 100) mod 10)
      + 10 * ((k / 10) mod 10) + k mod 10.
Proof.
  intro Hk.
  assert (H100 : k / 100 = k / 10 / 10)
    by (rewrite Nat.Div0.div_div; reflexivity).
  assert (H1000 : k / 1000 = k / 10 / 10 / 10)
    by (rewrite !Nat.Div0.div_div; reflexivity).
  rewrite (Nat.mod_small (k / 1000)) by assumption.
  rewrite H100, H1000.
  pose proof (Nat.div_mod_eq k 10).
  pose proof (Nat.div_mod_eq (k / 10) 10).
  pose proof (Nat.div_mod_eq (k / 10 / 10) 10).
  rewrite H1000 in Hk.
  lia.
Qed.

Lemma four_digits_inj (n m : nat) :
  n / 1000 < 10 -> m / 1000 < 10 -> four_digits n = four_digits m -> n = m.
Proof.
  intros Hn Hm H. unfold four_digits, two_digits in H.
  injection H as H1 H2 H3 H4.
  apply digit_inj in H1, H2, H3, H4.
  change (fst (Nat.divmod n 999 0 999)) with (n / 1000) in H1.
  change (fst (Nat.divmod m 999 0 999)) with (m / 1000) in H1.
  change (fst (Nat.divmod n 99 0 99)) with (n / 100) in H2.
  change (fst (Nat.divmod m 99 0 99)) with (m / 100) in H2.
  change (fst (Nat.divmod n 9 0 9)) with (n / 10) in H3.
  change (fst (Nat.divmod m 9 0 9)) with (m / 10) in H3.
  rewrite (four_digits_expand n Hn), (four_digits_expand m Hm).
  now rewrite H1, H2, H3, H4.
Qed.

Lemma isoformat_inj (d e : date) :
  date_ok d -> date_ok e -> isoformat d = isoformat e -> d = e.
Proof.
  destruct d as [y m a], e as [y' m' a']. unfold date_ok, isoformat.
  cbn [year month day]. intros (Hy & Hm & Ha) (Hy' & Hm' & Ha') H.
  assert (E : forall s t s' t' : string,
             String.length s = String.length s' ->
             (s ++ t = s' ++ t')%string -> s = s' /\ t = t').
  { induction s as [|c s IH]; intros t [|c' s'] t' Hl Heq; simpl in *;
      try discriminate; [now split|].
    injection Heq as -> Heq. injection Hl as Hl.
    destruct (IH _ _ _ Hl Heq) as (-> & ->). now split. }
  apply E in H; [|reflexivity]. destruct H as (H1 & H).
  apply (E "-") in H; [|reflexivity]. destruct H as (_ & H).
  apply E in H; [|reflexivity]. destruct H as (H2 & H).
  apply (E "-") in H; [|reflexivity]. destruct H as (_ & H3).
  apply four_digits_inj in H1; try assumption.
  apply two_digits_inj in H2, H3; try assumption. now subst.
Qed.

(** ** Calendar gate *)

(** C8. [is_trading_day] answers true exactly when the calendar fetch
    yields a calendar and today's date string is among the ISO forms of
    its dates; the fetch yields the first successful answer among at most
    three calls, and when there is none the gate answers false. *)
Theorem is_trading_day_iff (self : StockAnalyzer) (w : world) :
  (fst (is_trading_day self w) = true
   <-> exists cal,
         fst (get_trade_calendar w) = Some cal
         /\ In (today self) (map isoformat cal))
  /\ (fst (get_trade_calendar w) = None ->
      fst (is_trading_day self w) = false)
  /\ fst (get_trade_calendar w)
     = first_success (firstn 3 (tool_trade_date_hist_sina (provider w))).
Proof.
  split; [|split].
  - rewrite is_trading_day_value.
    destruct (fst (get_trade_calendar w)) as [cal|].
    + rewrite existsb_exists. split.
      * intros (d & Hin & Heq). apply String.eqb_eq in Heq. subst d.
        now exists cal.
      * intros (cal' & Heq & Hin). inversion Heq; subst cal'.
        exists (today self). split; [assumption | apply String.eqb_refl].
    + split; [discriminate|]. intros (cal & Heq & _). discriminate.
  - intro H. rewrite is_trading_day_value. now rewrite H.
  - apply get_trade_calendar_reply.
Qed.

(** ** Persistence *)

Lemma save_care_stocks_frame (self : StockAnalyzer)
  (care_stocks : list care_stock) (w : world) :
  result_json (files (snd (save_care_stocks self care_stocks w)))
  = result_json (files w)
  /\ write_fails (files (snd (save_care_stocks self care_stocks w)))
     = write_fails (files w).
Proof.
  unfold save_care_stocks, bind, read_files, write_files, ret. simpl.
  destruct (write_fails (files w) care_file); simpl.
  - destruct (cut_short (files w) care_file); simpl; now split.
  - destruct (write_fails (files w) (backup_file _)); simpl; [|now split].
    destruct (cut_short (files w) (backup_file _)); simpl; now split.
Qed.

Lemma save_care_stocks_written (self : StockAnalyzer)
  (care_stocks : list care_stock) (w : world) :
  write_fails (files w) care_file = false ->
  care_json (files (snd (save_care_stocks self care_stocks w)))
  = Stored care_stocks.
Proof.
  intro H. unfold save_care_stocks, bind, read_files, write_files, ret.
  simpl. rewrite H. simpl.
  destruct (write_fails (files w) (backup_file _)); [|reflexivity].
  now destruct (cut_short (files w) (backup_file _)).
Qed.

Lemma save_settlements_written (self : StockAnalyzer)
  (settled : list settled_stock) (w : world) :
  write_fails (files w) result_json_file = false ->
  result_json (files (snd (save_settlements_to_json self settled w)))
  = Stored {| last_update := current_time self;
              settled_stocks := Some settled |}.
Proof.
  intro H. unfold save_settlements_to_json, bind, read_files, write_files,
    ret. simpl. now rewrite H.
Qed.

Section Pipeline.

Variable str_float : num -> string.
Variable sort_values_desc : flow_df -> flow_df.
Variable format_2f : num -> string.
Variable format_signed_2f : num -> string.

Local Abbreviation run :=
  (analyze_stocks str_float sort_values_desc format_2f format_signed_2f).

Lemma save_result_report_frame (self : StockAnalyzer)
  (care_stocks : list care_stock) (settled : list settled_stock)
  (w : world) :
  result_json
    (files (snd (save_result_report str_float format_2f format_signed_2f
                   self care_stocks settled w)))
  = result_json (files w).
Proof.
  unfold save_result_report, bind, read_files, write_files, ret. simpl.
  destruct (write_fails (files w) result_file); [|reflexivity].
  now destruct (cut_short (files w) result_file).
Qed.

Lemma run_not_trading (self : StockAnalyzer) (w : world) :
  fst (is_trading_day self w) = false ->
  run self w = (Returned, snd (is_trading_day self w)).
Proof.
  intro H. unfold analyze_stocks, bind.
  destruct (is_trading_day self w) as [trading w1]. simpl in *.
  now rewrite H.
Qed.

(** C7. When the calendar gate answers false the run returns normally,
    the files are what they were, and the only provider calls made are
    those for the trading calendar: none for the spot quotes, none for
    the fund flow. *)
Theorem non_trading_day_touches_nothing (self : StockAnalyzer) (w : world) :
  fst (is_trading_day self w) = false ->
  exists w' evs,
    run self w = (Returned, w')
    /\ files w' = files w
    /\ trace w' = trace w ++ evs
    /\ ~ In (Called Stock_spot) evs
    /\ ~ In (Called Main_fund_flow) evs.
Proof.
  intro H. destruct (is_trading_day_trace self w) as (evs & Ht & Hall).
  exists (snd (is_trading_day self w)), evs.
  split; [now apply run_not_trading|].
  split; [apply is_trading_day_files|]. split; [assumption|].
  rewrite Forall_forall in Hall.
  split; intro Hin; destruct (Hall _ Hin) as [Heq|(n & Heq)]; discriminate.
Qed.

(** C9. On a trading day, when the spot fetch yields nothing, or the spot
    fetch succeeds and the fund-flow fetch yields nothing, the run
    returns normally and the files are what they were. *)
Theorem failed_fetch_leaves_files (self : StockAnalyzer) (w : world) :
  fst (is_trading_day self w) = true ->
  (fst (get_stock_data (snd (is_trading_day self w))) = None
   \/ fst (fetch_data_by_ak ak_stock_main_fund_flow 3 25
            (snd (get_stock_data (snd (is_trading_day self w))))) = None) ->
  exists w',
    run self w = (Returned, w')
    /\ files w' = files w.
Proof.
  intros Hday Hfail. unfold analyze_stocks, bind.
  pose proof (is_trading_day_files self w) as F1.
  destruct (is_trading_day self w) as [trading w1]. simpl in *. subst trading.
  simpl. rewrite load_care_stocks_run.
  pose proof (get_stock_data_files w1) as F2.
  destruct (get_stock_data w1) as [[stock_data|] w2]; simpl in *.
  - destruct Hfail as [Hfail|Hfail]; [discriminate|].
    unfold get_main_fund_flow, bind.
    pose proof (fetch_fund_flow_files w2) as F3.
    destruct (fetch_data_by_ak ak_stock_main_fund_flow 3 25 w2)
      as [[df|] w3]; simpl in *; [discriminate|].
    exists w3. split; [reflexivity | congruence].
  - exists w2. split; [reflexivity | congruence].
Qed.

(** C6. On a run that reaches persistence with a writable ledger file,
    the object written to [result.json] carries the run's timestamp and,
    as its settlements, the list read from the previous file followed by
    the settlements of this run. *)
Theorem ledger_is_previous_then_new (self : StockAnalyzer) (w : world)
  (stock_data : spot_df) (df : flow_df) :
  fst (is_trading_day self w) = true ->
  fst (get_stock_data (snd (is_trading_day self w))) = Some stock_data ->
  fst (fetch_data_by_ak ak_stock_main_fund_flow 3 25
         (snd (get_stock_data (snd (is_trading_day self w))))) = Some df ->
  write_fails (files w) result_json_file = false ->
  exists settled updated w',
    evaluate str_float (current_time self) (fst (load_care_stocks w))
      stock_data (result_df_of sort_values_desc df) df
    = Ok (settled, updated)
    /\ run self w = (Returned, w')
    /\ result_json (files w')
       = Stored {| last_update := current_time self;
                   settled_stocks :=
                     Some (fst (load_previous_settlements w) ++ settled) |}
    /\ (forall t previous,
          result_json (files w)
          = Stored {| last_update := t; settled_stocks := Some previous |} ->
          result_json (files w')
          = Stored {| last_update := current_time self;
                      settled_stocks := Some (previous ++ settled) |}).
Proof.
  intros Hday Hspot Hflow Hwrite.
  destruct (evaluate_spec str_float (current_time self) stock_data
              (result_df_of sort_values_desc df) df
              (fst (load_care_stocks w))) as (added & Hev & _).
  eexists. eexists.
  assert (Hrun : exists w',
             run self w = (Returned, w')
             /\ result_json (files w')
                = Stored {| last_update := current_time self;
                            settled_stocks :=
                              Some (fst (load_previous_settlements w)
                                      ++ flat_map
                                           (fun s => settled_of
                                              (analyze_care_stock str_float
                                                 stock_data df s))
                                           (fst (load_care_stocks w))) |}).
  { unfold analyze_stocks, bind.
    pose proof (is_trading_day_files self w) as F1.
    destruct (is_trading_day self w) as [trading w1]. simpl in *.
    subst trading. simpl. rewrite load_care_stocks_run.
    rewrite (load_care_stocks_files w w1 F1).
    pose proof (get_stock_data_files w1) as F2.
    destruct (get_stock_data w1) as [sd w2]. simpl in *. subst sd.
    unfold get_main_fund_flow, bind.
    pose proof (fetch_fund_flow_files w2) as F3.
    destruct (fetch_data_by_ak ak_stock_main_fund_flow 3 25 w2)
      as [fl w3]. simpl in *. subst fl. simpl.
    rewrite Hev. rewrite load_previous_settlements_run.
    assert (F : files w3 = files w) by congruence.
    rewrite (load_previous_settlements_files w w3 F).
    match goal with
    | |- context [save_care_stocks self ?u w3] =>
        pose proof (save_care_stocks_frame self u w3) as (_ & Fw);
        destruct (save_care_stocks self u w3) as [[] w4]
    end.
    simpl in Fw.
    match goal with
    | |- context [save_settlements_to_json self ?l w4] =>
        pose proof (save_settlements_written self l w4) as Fj;
        destruct (save_settlements_to_json self l w4) as [[] w5]
    end.
    simpl in Fj.
    match goal with
    | |- context [save_result_report _ _ _ self ?u ?l w5] =>
        pose proof (save_result_report_frame self u l w5) as Fr;
        destruct (save_result_report str_float format_2f format_signed_2f
                    self u l w5) as [[] w6]
    end.
    simpl in Fr. exists w6. split; [reflexivity|].
    rewrite Fr. apply Fj. rewrite Fw, F. exact Hwrite. }
  destruct Hrun as (w' & Hrun & Hjson). exists w'.
  split; [exact Hev|]. split; [exact Hrun|]. split; [exact Hjson|].
  intros t previous Hprev. rewrite Hjson.
  unfold load_previous_settlements, bind, read_files, ret. simpl.
  now rewrite Hprev.
Qed.

End Pipeline.

(** ** Candidate ranking *)

Local Abbreviation not_below :=
  (fun a b : flow_row =>
     num_lt (flow_main_net_ratio a) (flow_main_net_ratio b) = false).

Lemma candidate_mask_iff (r : flow_row) :
  candidate_mask r = true
  <-> notna (flow_latest_price r) = true
      /\ num_gt (flow_main_net_ratio r) (of_int 0) = true
      /\ str_contains "ST" (flow_name r) = false
      /\ num_lt (flow_today_change r) (of_int 0) = true.
Proof.
  unfold candidate_mask. rewrite !andb_true_iff, negb_true_iff. tauto.
Qed.

Lemma StronglySorted_weaken {A : Type} (R R' : A -> A -> Prop)
  (P : A -> Prop) (l : list A) :
  (forall a b, P a -> P b -> R a b -> R' a b) ->
  Forall P l -> StronglySorted R l -> StronglySorted R' l.
Proof.
  intros HR HP HS. induction HS as [|a l HS IH Hall]; constructor.
  - apply IH. now inversion HP.
  - inversion HP as [|? ? Pa Pl]; subst.
    rewrite Forall_forall in *. intros b Hb. apply HR; auto.
Qed.

Section Ranking.

Variable sort_values_desc : flow_df -> flow_df.

Hypothesis sort_values_desc_perm :
  forall df, Permutation (sort_values_desc df) df.

Hypothesis sort_values_desc_sorted :
  forall df, StronglySorted not_below (sort_values_desc df).

(** C3. The filtered frame holds exactly the rows with a price, a
    positive ratio, no "ST" in the name and a negative change; the
    ranking is a rearrangement of it in which no row has a smaller ratio
    than a later one.  With fewer than five filtered rows there is no
    candidate; with five or more the candidates are the codes of the
    first five rows of the ranking. *)
Theorem top_candidates_need_five_rows (df : flow_df) :
  (forall r, In r (filtered_df df)
             <-> In r df
                 /\ notna (flow_latest_price r) = true
                 /\ num_gt (flow_main_net_ratio r) (of_int 0) = true
                 /\ str_contains "ST" (flow_name r) = false
                 /\ num_lt (flow_today_change r) (of_int 0) = true)
  /\ Permutation (result_df_of sort_values_desc df) (filtered_df df)
  /\ StronglySorted
       (fun a b =>
          num_ge (flow_main_net_ratio a) (flow_main_net_ratio b) = true)
       (result_df_of sort_values_desc df)
  /\ (List.length (filtered_df df) < 5 ->
      top_5_stocks (result_df_of sort_values_desc df) = [])
  /\ (5 <= List.length (filtered_df df) ->
      top_5_stocks (result_df_of sort_values_desc df)
      = map flow_code (firstn 5 (result_df_of sort_values_desc df))
      /\ List.length (top_5_stocks (result_df_of sort_values_desc df)) = 5).
Proof.
  assert (Hfilter : forall r, In r (filtered_df df)
             <-> In r df
                 /\ notna (flow_latest_price r) = true
                 /\ num_gt (flow_main_net_ratio r) (of_int 0) = true
                 /\ str_contains "ST" (flow_name r) = false
                 /\ num_lt (flow_today_change r) (of_int 0) = true).
  { intro r. unfold filtered_df. rewrite filter_In, candidate_mask_iff.
    tauto. }
  assert (Hperm : Permutation (result_df_of sort_values_desc df)
                    (filtered_df df))
    by apply sort_values_desc_perm.
  assert (Hlen : List.length (result_df_of sort_values_desc df)
                 = List.length (filtered_df df))
    by now apply Permutation_length.
  split; [exact Hfilter|]. split; [exact Hperm|]. split; [|split].
  - apply (StronglySorted_weaken not_below _
             (fun r => num_gt (flow_main_net_ratio r) (of_int 0) = true)).
    + intros a b Ha Hb Hab. cbv beta in Hab.
      apply num_lt_fin in Ha. destruct Ha as (z & x & _ & Hx & _).
      apply num_lt_fin in Hb. destruct Hb as (z' & y & _ & Hy & _).
      rewrite Hx, Hy in *. simpl in *. apply Qle_bool_iff.
      now apply Qltb_ge.
    + rewrite Forall_forall. intros r Hr. apply Hfilter.
      eapply Permutation_in; eassumption.
    + apply sort_values_desc_sorted.
  - intro Hlt. unfold top_5_stocks. rewrite Hlen.
    destruct (Nat.leb_spec 5 (List.length (filtered_df df)));
      [lia | reflexivity].
  - intro Hge. unfold top_5_stocks. rewrite Hlen.
    destruct (Nat.leb_spec 5 (List.length (filtered_df df))); [|lia].
    split; [reflexivity|]. rewrite length_map, length_firstn. lia.
Qed.

End Ranking.

(** The insertion sort meets the contract of the sort. *)

Lemma insert_desc_perm (r : flow_row) (l : flow_df) :
  Permutation (insert_desc r l) (r :: l).
Proof.
  induction l as [|y l IH]; simpl; [reflexivity|].
  destruct (num_lt _ _); [reflexivity|].
  rewrite IH. apply perm_swap.
Qed.

Lemma filter_split_perm {A : Type} (f : A -> bool) (l : list A) :
  Permutation (filter f l ++ filter (fun x => negb (f x)) l) l.
Proof.
  induction l as [|a l IH]; simpl; [reflexivity|].
  destruct (f a); simpl.
  - now constructor.
  - rewrite <- Permutation_middle. now constructor.
Qed.

Lemma insertion_sort_desc_perm (df : flow_df) :
  Permutation (insertion_sort_desc df) df.
Proof.
  unfold insertion_sort_desc.
  rewrite <- (filter_split_perm (fun r => notna (flow_main_net_ratio r)) df)
    at 3.
  apply Permutation_app_tail.
  induction (filter _ df) as [|r l IH]; simpl; [reflexivity|].
  rewrite insert_desc_perm. now constructor.
Qed.

Lemma not_below_trans (a b c : flow_row) :
  notna (flow_main_net_ratio b) = true ->
  not_below a b -> not_below b c -> not_below a c.
Proof.
  cbv beta.
  destruct (flow_main_net_ratio a) as [|x], (flow_main_net_ratio b) as [|y],
    (flow_main_net_ratio c) as [|z]; simpl; try reflexivity;
    try discriminate.
  intros _ H1 H2. apply Qltb_ge in H1, H2. apply Qltb_ge.
  eapply Qle_trans; eassumption.
Qed.

Lemma insert_desc_sorted (r : flow_row) (l : flow_df) :
  notna (flow_main_net_ratio r) = true ->
  Forall (fun y => notna (flow_main_net_ratio y) = true) l ->
  StronglySorted not_below l ->
  StronglySorted not_below (insert_desc r l).
Proof.
  intros Hr Hl HS. induction HS as [|y l HS IH Hall]; simpl.
  - repeat constructor.
  - inversion Hl as [|? ? Hy Hl']; subst.
    destruct (num_lt (flow_main_net_ratio y) (flow_main_net_ratio r)) eqn:E.
    + constructor; [now constructor|].
      assert (Hry : not_below r y).
      { apply num_lt_fin in E. destruct E as (a & b & -> & -> & Hlt).
        simpl. apply Qltb_ge. now apply Qlt_le_weak. }
      constructor; [exact Hry|].
      rewrite Forall_forall in *. intros z Hz.
      apply (not_below_trans r y z); auto.
    + constructor; [now apply IH|].
      rewrite Forall_forall in *. intros z Hz.
      apply (Permutation_in _ (insert_desc_perm r l)) in Hz.
      destruct Hz as [<-|Hz]; [exact E | now apply Hall].
Qed.

Lemma insertion_sort_desc_sorted (df : flow_df) :
  StronglySorted not_below (insertion_sort_desc df).
Proof.
  unfold insertion_sort_desc.
  assert (Hs : forall l,
             Forall (fun y => notna (flow_main_net_ratio y) = true) l ->
             StronglySorted not_below (fold_right insert_desc [] l)
             /\ Forall (fun y => notna (flow_main_net_ratio y) = true)
                  (fold_right insert_desc [] l)).
  { induction l as [|r l IH]; simpl; intro Hl.
    - split; constructor.
    - inversion Hl; subst. destruct IH as (IH1 & IH2); [assumption|]. split.
      + now apply insert_desc_sorted.
      + rewrite Forall_forall in *. intros z Hz.
        apply (Permutation_in _ (insert_desc_perm r _)) in Hz.
        destruct Hz as [<-|Hz]; auto. }
  destruct (Hs (filter (fun r => notna (flow_main_net_ratio r)) df))
    as (Hsorted & _).
  { rewrite Forall_forall. intros r Hr. now apply filter_In in Hr. }
  set (nans := filter (fun r => negb (notna (flow_main_net_ratio r))) df).
  assert (Hn : forall a b, In b nans -> not_below a b).
  { intros a b Hb. apply filter_In in Hb. destruct Hb as (_ & Hb).
    destruct (flow_main_net_ratio b); [|discriminate].
    now destruct (flow_main_net_ratio a). }
  assert (Hnans : StronglySorted not_below nans).
  { clearbody nans. induction nans as [|b l IH]; constructor.
    - apply IH. intros a c Hc. apply Hn. now right.
    - rewrite Forall_forall. intros c Hc. apply Hn. now right. }
  induction Hsorted as [|a l HS IH Hall]; simpl; [exact Hnans|].
  constructor; [exact IH|].
  rewrite Forall_forall in *. intros z Hz. apply in_app_iff in Hz.
  destruct Hz as [Hz|Hz]; [now apply Hall | now apply Hn].
Qed.

(** ** The model at work *)

Local Abbreviation demo_run :=
  (analyze_stocks str_fraction insertion_sort_desc str_fraction
     str_fraction).

(** One full run: the stock under rule 1 leaves the watch list at
    break-even, the unranked stock stays as it was, the ranked one is
    refreshed, and the four candidates not yet watched are added. *)
Example demo_run_ledger :
  result_json (files (snd (demo_run demo_self demo_world)))
  = Stored
      {| last_update := "2025-01-03 15:30:01";
         settled_stocks :=
           Some (demo_previous ++
                 [ {| settled_code := "600000";
                      settled_name := "PF BANK";
                      settled_buy_price := of_int 10;
                      settled_start_time := "2025-01-02 15:30:00";
                      settled_current_price := of_int 9;
                      settled_main_net_ratio := of_int (-6);
                      settled_today_change := of_int 1;
                      settled_profit_loss := of_int 0;
                      settled_remark :=
                        "主力净占比-6/1%小于-5%，触发卖出条件" |} ]) |}.
Proof. vm_compute. reflexivity. Qed.

Example demo_run_watch_list :
  match care_json (files (snd (demo_run demo_self demo_world))) with
  | Stored l => map care_code l
  | _ => []
  end
  = ["000002"; "300001"; "000006"; "000004"; "000001"; "000007"].
Proof. vm_compute. reflexivity. Qed.

Example demo_run_trace :
  trace (snd (demo_run demo_self demo_world))
  = [Called Trade_calendar; Slept 25; Called Trade_calendar;
     Called Stock_spot; Called Main_fund_flow].
Proof. vm_compute. reflexivity. Qed.

Lemma top_candidates_need_five_rows_witness :
  top_5_stocks (result_df_of insertion_sort_desc demo_ranking)
  = map flow_code (firstn 5 (result_df_of insertion_sort_desc demo_ranking))
  /\ top_5_stocks (result_df_of insertion_sort_desc demo_ranking)
     = ["000002"; "000006"; "000004"; "000001"; "000007"].
Proof.
  destruct (top_candidates_need_five_rows insertion_sort_desc
              insertion_sort_desc_perm insertion_sort_desc_sorted
              demo_ranking) as (_ & _ & _ & _ & H).
  destruct H as (H & _).
  - vm_compute. repeat constructor.
  - split; [exact H|]. vm_compute. reflexivity.
Defined.

Lemma absent_from_ranking_carried_unchanged_witness :
  analyze_care_stock str_fraction demo_market demo_ranking
    (watched "300001" 29)
  = Watch (watched "300001" 29).
Proof.
  apply (absent_from_ranking_carried_unchanged str_fraction
           "2025-01-03 15:30:01" demo_market
           (result_df_of insertion_sort_desc demo_ranking) demo_ranking
           demo_care (watched "300001" 29)).
  - simpl. right. right. left. reflexivity.
  - intros r Hr. simpl in Hr.
    repeat (destruct Hr as [<-|Hr]; [vm_compute; discriminate|]).
    contradiction.
Defined.

Lemma updated_codes_stay_distinct_witness :
  exists settled updated,
    evaluate str_fraction "2025-01-03 15:30:01" demo_care demo_market
      (result_df_of insertion_sort_desc demo_ranking) demo_ranking
    = Ok (settled, updated)
    /\ NoDup (map care_code updated).
Proof.
  apply (updated_codes_stay_distinct str_fraction "2025-01-03 15:30:01"
           demo_market (result_df_of insertion_sort_desc demo_ranking)
           demo_ranking demo_care).
  simpl. repeat constructor; simpl; intuition discriminate.
Defined.

Lemma ledger_is_previous_then_new_witness :
  exists settled updated w',
    evaluate str_fraction (current_time demo_self)
      (fst (load_care_stocks demo_world)) demo_market
      (result_df_of insertion_sort_desc demo_ranking) demo_ranking
    = Ok (settled, updated)
    /\ demo_run demo_self demo_world = (Returned, w')
    /\ result_json (files w')
       = Stored {| last_update := current_time demo_self;
                   settled_stocks := Some (demo_previous ++ settled) |}.
Proof.
  destruct (ledger_is_previous_then_new str_fraction insertion_sort_desc
              str_fraction str_fraction demo_self demo_world demo_market
              demo_ranking) as (s & u & w' & H1 & H2 & H3 & _).
  - vm_compute. reflexivity.
  - vm_compute. reflexivity.
  - vm_compute. reflexivity.
  - vm_compute. reflexivity.
  - exists s, u, w'. split; [exact H1|]. split; [exact H2|]. exact H3.
Defined.

Lemma non_trading_day_touches_nothing_witness :
  exists w' evs,
    demo_run demo_self_saturday demo_world = (Returned, w')
    /\ files w' = files demo_world
    /\ trace w' = trace demo_world ++ evs
    /\ ~ In (Called Stock_spot) evs
    /\ ~ In (Called Main_fund_flow) evs.
Proof.
  apply (non_trading_day_touches_nothing str_fraction insertion_sort_desc
           str_fraction str_fraction demo_self_saturday demo_world).
  vm_compute. reflexivity.
Defined.

Lemma failed_fetch_leaves_files_witness :
  exists w',
    demo_run demo_self demo_world_no_spot = (Returned, w')
    /\ files w' = files demo_world_no_spot.
Proof.
  apply (failed_fetch_leaves_files str_fraction insertion_sort_desc
           str_fraction str_fraction demo_self demo_world_no_spot).
  - vm_compute. reflexivity.
  - left. vm_compute. reflexivity.
Defined.

(** From the year 1000 on [strftime] prints the date as [str] does. *)
Lemma strftime_date_isoformat (d : date) :
  1000 <= year d -> strftime_date d = isoformat d.
Proof.
  intro H. unfold strftime_date, isoformat, strftime_Y.
  apply Nat.ltb_ge in H. now rewrite H.
Qed.

(** X18. The gate in terms of dates: for an analyzer built by [init]
    from a clock reading of the year 1000 or later, when the fetch yields
    a calendar and the dates involved print with fixed width, the gate
    answers true exactly when the date of the first clock reading is in
    the calendar. *)
Corollary is_trading_day_of_dates (now1 now2 : datetime) (w : world)
  (cal : list date) :
  fst (get_trade_calendar w) = Some cal ->
  1000 <= year (dt_date now1) ->
  date_ok (dt_date now1) -> Forall date_ok cal ->
  (fst (is_trading_day (init now1 now2) w) = true <-> In (dt_date now1) cal).
Proof.
  intros Hcal Hyear Hnow Hok. rewrite is_trading_day_value, Hcal.
  unfold init. cbn [today]. rewrite (strftime_date_isoformat _ Hyear).
  rewrite existsb_exists. rewrite Forall_forall in Hok. split.
  - intros (str & Hin & Heq). apply String.eqb_eq in Heq. subst str.
    apply in_map_iff in Hin. destruct Hin as (d & Hd & Hin).
    apply isoformat_inj in Hd; auto. now subst d.
  - intro Hin. exists (isoformat (dt_date now1)).
    split; [now apply in_map | apply String.eqb_refl].
Qed.

(** * Further properties of the code *)

(** ** The retry policy *)

Section Retry.

Context {A : Type}.
Variable call : M (option A).
Variable method : ak_method.
Variable replies : akshare -> list (option A).

Hypothesis call_run :
  forall w,
    fst (call w) = first_success (firstn 1 (replies (provider w)))
    /\ replies (provider (snd (call w))) = tl (replies (provider w))
    /\ trace (snd (call w)) = trace w ++ [Called method]
    /\ files (snd (call w)) = files w.

Variable max_retries retry_delay : nat.

Lemma fetch_attempts_success (k : nat) (a : A) (rest : list (option A)) :
  forall n i w,
    i + n = max_retries -> k < n ->
    replies (provider w) = repeat None k ++ Some a :: rest ->
    exists w',
      fetch_attempts call max_retries retry_delay (seq i n) w = (Some a, w')
      /\ trace w' = trace w ++ attempts_trace method retry_delay k
      /\ replies (provider w') = rest
      /\ files w' = files w.
Proof.
  induction k as [|k IH]; intros n i w Hmax Hk Hrep;
    (destruct n as [|n]; [lia|]); simpl; unfold bind;
    destruct (call_run w) as (Hr & Ht & He & Hf);
    rewrite Hrep in Hr, Ht; simpl in Hr, Ht;
    destruct (call w) as [r w1]; simpl in *; subst r.
  - exists w1. split; [reflexivity|]. split; [exact He|]. now split.
  - assert (Hi : (i <? max_retries - 1)%nat = true)
      by (apply Nat.ltb_lt; lia).
    rewrite Hi. unfold sleep, emit. simpl.
    destruct (IH n (S i)
                {| provider := provider w1; files := files w1;
                   trace := trace w1 ++ [Slept retry_delay] |})
      as (w' & Hrun & Htr & Hrest & Hfiles); simpl; try lia; try assumption.
    exists w'. split; [exact Hrun|]. simpl in Htr, Hfiles.
    split; [|split; [assumption | congruence]].
    rewrite Htr, He. unfold attempts_trace. simpl.
    now rewrite <- !app_assoc.
Qed.

Lemma fetch_attempts_exhausted :
  forall n i w,
    i + S n = max_retries ->
    first_success (firstn (S n) (replies (provider w))) = None ->
    exists w',
      fetch_attempts call max_retries retry_delay (seq i (S n)) w
      = (None, w')
      /\ trace w' = trace w ++ attempts_trace method retry_delay n
      /\ files w' = files w.
Proof.
  induction n as [|n IH]; intros i w Hmax Hrep; simpl; unfold bind;
    destruct (call_run w) as (Hr & Ht & He & Hf);
    destruct (call w) as [r w1]; simpl in *.
  - assert (Hnone : r = None).
    { rewrite Hr. destruct (replies (provider w)) as [|[a|] l];
        simpl in *; congruence. }
    clear Hr. subst r.
    assert (Hi : (i <? max_retries - 1)%nat = false)
      by (apply Nat.ltb_ge; lia).
    rewrite Hi. simpl. exists w1. split; [reflexivity|].
    split; [exact He | assumption].
  - assert (Hnone : r = None
                    /\ first_success
                         (firstn (S n) (replies (provider w1))) = None).
    { rewrite Hr, Ht. destruct (replies (provider w)) as [|[a|] l];
        simpl in *; try discriminate; split; try reflexivity;
        try assumption. }
    destruct Hnone as (-> & Hrest).
    assert (Hi : (i <? max_retries - 1)%nat = true)
      by (apply Nat.ltb_lt; lia).
    rewrite Hi. unfold sleep, emit. simpl.
    destruct (IH (S i)
                {| provider := provider w1; files := files w1;
                   trace := trace w1 ++ [Slept retry_delay] |})
      as (w' & Hrun & Htr & Hfiles); simpl; try lia; try assumption.
    simpl in Hrun. exists w'. split; [exact Hrun|]. simpl in Htr, Hfiles.
    split; [|congruence].
    rewrite Htr, He. unfold attempts_trace. simpl.
    now rewrite <- !app_assoc.
Qed.

(** X1. When the first [k] calls of an operation fail and the next one
    answers, with [k] below [max_retries], the fetch returns that answer
    after [k + 1] calls, pausing [retry_delay] seconds after each failure,
    consumes exactly those answers and touches no file. *)
Theorem fetch_succeeds_after_failures
  (k : nat) (a : A) (rest : list (option A)) (w : world) :
  k < max_retries ->
  replies (provider w) = repeat None k ++ Some a :: rest ->
  exists w',
    fetch_data_by_ak call max_retries retry_delay w = (Some a, w')
    /\ trace w' = trace w ++ attempts_trace method retry_delay k
    /\ replies (provider w') = rest
    /\ files w' = files w.
Proof.
  intros Hk Hrep. unfold fetch_data_by_ak.
  apply (fetch_attempts_success k a rest max_retries 0 w); auto.
Qed.

(** X2. When none of the first [max_retries] calls answers, the fetch
    returns nothing after exactly [max_retries] calls, with a pause after
    each failure but the last, and touches no file. *)
Theorem fetch_gives_up_after_max_retries (w : world) :
  0 < max_retries ->
  first_success (firstn max_retries (replies (provider w))) = None ->
  exists w',
    fetch_data_by_ak call max_retries retry_delay w = (None, w')
    /\ trace w'
       = trace w ++ attempts_trace method retry_delay (max_retries - 1)
    /\ files w' = files w.
Proof.
  intros Hpos Hrep. unfold fetch_data_by_ak.
  destruct max_retries as [|n] eqn:E; [lia|].
  replace (S n - 1) with n by lia.
  assert (Hex := fetch_attempts_exhausted).
  rewrite E in Hex. apply Hex; [reflexivity | assumption].
Qed.

End Retry.

Lemma calendar_call_run :
  forall w,
    fst (ak_tool_trade_date_hist_sina w)
    = first_success (firstn 1 (tool_trade_date_hist_sina (provider w)))
    /\ tool_trade_date_hist_sina
         (provider (snd (ak_tool_trade_date_hist_sina w)))
       = tl (tool_trade_date_hist_sina (provider w))
    /\ trace (snd (ak_tool_trade_date_hist_sina w))
       = trace w ++ [Called Trade_calendar]
    /\ files (snd (ak_tool_trade_date_hist_sina w)) = files w.
Proof.
  intro w. split; [apply calendar_call_reply|].
  split; [apply calendar_call_rest|].
  split; [apply calendar_call_trace | apply calendar_call_files].
Qed.

Lemma spot_call_trace :
  forall w, trace (snd (ak_stock_zh_a_spot_em w))
            = trace w ++ [Called Stock_spot].
Proof. provider_call. Qed.

Lemma flow_call_trace :
  forall w, trace (snd (ak_stock_main_fund_flow w))
            = trace w ++ [Called Main_fund_flow].
Proof. provider_call. Qed.

Lemma spot_call_run :
  forall w,
    fst (ak_stock_zh_a_spot_em w)
    = first_success (firstn 1 (stock_zh_a_spot_em (provider w)))
    /\ stock_zh_a_spot_em (provider (snd (ak_stock_zh_a_spot_em w)))
       = tl (stock_zh_a_spot_em (provider w))
    /\ trace (snd (ak_stock_zh_a_spot_em w)) = trace w ++ [Called Stock_spot]
    /\ files (snd (ak_stock_zh_a_spot_em w)) = files w.
Proof.
  intro w. split; [apply spot_call_reply|]. split; [apply spot_call_rest|].
  split; [apply spot_call_trace | apply spot_call_files].
Qed.

Lemma fetch_succeeds_after_failures_witness :
  exists w',
    get_trade_calendar demo_world = (Some demo_calendar, w')
    /\ trace w' = [Called Trade_calendar; Slept 25; Called Trade_calendar]
    /\ tool_trade_date_hist_sina (provider w') = []
    /\ files w' = demo_files.
Proof.
  apply (fetch_succeeds_after_failures ak_tool_trade_date_hist_sina
           Trade_calendar tool_trade_date_hist_sina calendar_call_run
           3 25 1 demo_calendar [] demo_world).
  - lia.
  - reflexivity.
Defined.

Lemma fetch_gives_up_after_max_retries_witness :
  exists w',
    get_stock_data demo_world_no_spot = (None, w')
    /\ trace w'
       = [Called Stock_spot; Slept 25; Called Stock_spot; Slept 25;
          Called Stock_spot]
    /\ files w' = demo_files.
Proof.
  apply (fetch_gives_up_after_max_retries ak_stock_zh_a_spot_em
           Stock_spot stock_zh_a_spot_em spot_call_run
           3 25 demo_world_no_spot).
  - lia.
  - reflexivity.
Defined.

(** ** The rule cascade, branch by branch *)

Section Cascade.

Variable str_float : num -> string.
Variable stock_data : spot_df.
Variable main_fund_flow_df : flow_df.

Local Abbreviation body :=
  (analyze_care_stock str_float stock_data main_fund_flow_df).
Local Abbreviation loop :=
  (care_loop str_float stock_data main_fund_flow_df).

(** X3. A watched stock whose matched row triggers no rule (ratio not
    below -5, change not above 10, and not both change above 0 and ratio
    below 0; a missing ratio or change triggers nothing) stays in the
    watch list: code, buy price, start time and remark are kept, name,
    current price, ratio and change are those of the row. *)
Theorem no_rule_refreshes_the_entry
  (care_stocks : list care_stock) (stock : care_stock) (row : flow_row) :
  In stock care_stocks ->
  iloc0 (flow_with_code main_fund_flow_df (care_code stock)) = Some row ->
  num_lt (flow_main_net_ratio row) (of_int (-5)) = false ->
  num_gt (flow_today_change row) (of_int 10) = false ->
  (num_gt (flow_today_change row) (of_int 0) = false
   \/ num_lt (flow_main_net_ratio row) (of_int 0) = false) ->
  exists c,
    body stock = Watch c
    /\ In c (snd (loop care_stocks [] []))
    /\ care_code c = care_code stock
    /\ care_buy_price c = care_buy_price stock
    /\ care_start_time c = care_start_time stock
    /\ care_remark c = care_remark stock
    /\ care_name c = Some (flow_name row)
    /\ care_current_price c = Some (flow_latest_price row)
    /\ care_main_net_ratio c = Some (flow_main_net_ratio row)
    /\ care_today_change c = Some (flow_today_change row).
Proof.
  intros Hin Hrow H1 H2 H3.
  assert (Hb : body stock = Watch (refresh stock row)).
  { unfold analyze_care_stock. rewrite Hrow. unfold apply_rules.
    rewrite H1, H2. destruct H3 as [H3|H3]; rewrite H3;
      [reflexivity | now rewrite andb_false_r]. }
  eexists. split; [exact Hb|]. split.
  - apply care_loop_watched. exists stock. now split.
  - simpl. repeat split; reflexivity.
Qed.

(** X4. A watched stock whose matched row has a ratio not below -5, a
    change above 0 but not above 10 and a ratio below 0 is settled by
    rule 3; the remark prints the main net ratio in both of its slots,
    the one for the change included. *)
Theorem rule_3_remark_prints_ratio_twice
  (care_stocks : list care_stock) (stock : care_stock) (row : flow_row) :
  In stock care_stocks ->
  iloc0 (flow_with_code main_fund_flow_df (care_code stock)) = Some row ->
  num_lt (flow_main_net_ratio row) (of_int (-5)) = false ->
  num_gt (flow_today_change row) (of_int 10) = false ->
  num_gt (flow_today_change row) (of_int 0) = true ->
  num_lt (flow_main_net_ratio row) (of_int 0) = true ->
  exists s,
    body stock = Settle s
    /\ In s (fst (loop care_stocks [] []))
    /\ settled_remark s
       = ("今日涨幅" ++ str_float (flow_main_net_ratio row)
            ++ "%大于0%，且主力净占比"
            ++ str_float (flow_main_net_ratio row)
            ++ "%小于0%，触发卖出条件")%string
    /\ settled_code s = care_code stock
    /\ settled_name s = flow_name row
    /\ settled_buy_price s = care_buy_price stock
    /\ settled_start_time s = care_start_time stock
    /\ settled_current_price s = flow_latest_price row
    /\ settled_main_net_ratio s = flow_main_net_ratio row
    /\ settled_today_change s = flow_today_change row.
Proof.
  intros Hin Hrow H1 H2 H3 H4.
  assert (Hb : body stock
               = Settle (settle stock row
                   (profit_loss_break_even
                      (highest_price_of stock_data (care_code stock))
                      (flow_latest_price row) (care_buy_price stock))
                   (remark_change_above_0 str_float
                      (flow_main_net_ratio row)))).
  { unfold analyze_care_stock. rewrite Hrow. unfold apply_rules.
    now rewrite H1, H2, H3, H4. }
  eexists. split; [exact Hb|]. split.
  - apply care_loop_settled. exists stock. now split.
  - simpl. repeat split; reflexivity.
Qed.

(** What a settlement says about the stock and the row it comes from. *)
Lemma body_settle_inv (stock : care_stock) (s : settled_stock) :
  body stock = Settle s ->
  exists row,
    iloc0 (flow_with_code main_fund_flow_df (care_code stock)) = Some row
    /\ (num_lt (flow_main_net_ratio row) (of_int (-5)) = true
        \/ num_gt (flow_today_change row) (of_int 10) = true
        \/ (num_gt (flow_today_change row) (of_int 0) = true
            /\ num_lt (flow_main_net_ratio row) (of_int 0) = true))
    /\ (exists profit_loss remark, s = settle stock row profit_loss remark)
    /\ (settled_profit_loss s = of_int 0
        \/ settled_profit_loss s
           = num_sub (flow_latest_price row) (care_buy_price stock))
    /\ (settled_remark s
          = remark_ratio_below str_float (flow_main_net_ratio row)
        \/ settled_remark s
           = remark_change_above_10 str_float (flow_main_net_ratio row)
        \/ settled_remark s
           = remark_change_above_0 str_float (flow_main_net_ratio row)).
Proof.
  unfold analyze_care_stock.
  destruct (iloc0 (flow_with_code main_fund_flow_df (care_code stock)))
    as [row|]; [|discriminate].
  intro H. exists row. split; [reflexivity|]. revert H. unfold apply_rules.
  assert (Hp : forall hp,
             profit_loss_break_even hp (flow_latest_price row)
               (care_buy_price stock) = of_int 0
             \/ profit_loss_break_even hp (flow_latest_price row)
                  (care_buy_price stock)
                = num_sub (flow_latest_price row) (care_buy_price stock)).
  { intro hp. rewrite profit_loss_break_even_spec. destruct hp as [h|];
      [destruct (num_truthy h && num_gt h (care_buy_price stock))|]; auto. }
  destruct (num_lt (flow_main_net_ratio row) (of_int (-5))) eqn:E1;
    [|destruct (num_gt (flow_today_change row) (of_int 10)) eqn:E2;
      [|destruct (num_gt (flow_today_change row) (of_int 0)) eqn:E3;
        [destruct (num_lt (flow_main_net_ratio row) (of_int 0)) eqn:E4|]]];
    simpl; intro H; inversion H; subst s; simpl.
  - split; [now left|]. split; [eauto|]. split; [apply Hp | now left].
  - split; [now right; left|]. split; [eauto|].
    split; [now right | now right; left].
  - split; [now right; right|]. split; [eauto|].
    split; [apply Hp | now right; right].
Qed.

(** X5. Nothing is settled without a cause: every settlement of the loop
    belongs to a watched stock whose matched row triggers one of the
    three rules; it records the stock's code, buy price and start time
    and the row's name, price, ratio and change; its profit is either 0
    or the current price minus the buy price, and its remark is one of
    the three rule remarks, built from the ratio. *)
Theorem settlements_have_a_cause
  (care_stocks : list care_stock) (s : settled_stock) :
  In s (fst (loop care_stocks [] [])) ->
  exists stock row,
    In stock care_stocks
    /\ iloc0 (flow_with_code main_fund_flow_df (care_code stock)) = Some row
    /\ (num_lt (flow_main_net_ratio row) (of_int (-5)) = true
        \/ num_gt (flow_today_change row) (of_int 10) = true
        \/ (num_gt (flow_today_change row) (of_int 0) = true
            /\ num_lt (flow_main_net_ratio row) (of_int 0) = true))
    /\ settled_code s = care_code stock
    /\ settled_buy_price s = care_buy_price stock
    /\ settled_start_time s = care_start_time stock
    /\ settled_name s = flow_name row
    /\ settled_current_price s = flow_latest_price row
    /\ settled_main_net_ratio s = flow_main_net_ratio row
    /\ settled_today_change s = flow_today_change row
    /\ (settled_profit_loss s = of_int 0
        \/ settled_profit_loss s
           = num_sub (settled_current_price s) (settled_buy_price s))
    /\ (settled_remark s
          = remark_ratio_below str_float (settled_main_net_ratio s)
        \/ settled_remark s
           = remark_change_above_10 str_float (settled_main_net_ratio s)
        \/ settled_remark s
           = remark_change_above_0 str_float (settled_main_net_ratio s)).
Proof.
  intro Hs. apply care_loop_settled in Hs. destruct Hs as (stock & Hin & Hb).
  destruct (body_settle_inv stock s Hb)
    as (row & Hrow & Hrule & (p & r & Heq) & Hp & Hr).
  exists stock, row. subst s. simpl in *. repeat split; auto.
Qed.

(** X6. The loop over the watch list loses and duplicates nothing: each
    watched stock yields exactly one settlement or one kept entry with
    its code, so the codes of the settlements and of the kept entries
    together are a rearrangement of the codes of the input. *)
Theorem loop_settles_or_keeps_each_stock (care_stocks : list care_stock) :
  List.length (fst (loop care_stocks [] []))
    + List.length (snd (loop care_stocks [] []))
  = List.length care_stocks
  /\ Permutation
       (map settled_code (fst (loop care_stocks [] []))
          ++ map care_code (snd (loop care_stocks [] [])))
       (map care_code care_stocks).
Proof.
  rewrite care_loop_spec. simpl.
  induction care_stocks as [|stock rest (IHl & IHp)]; simpl.
  - split; [reflexivity | constructor].
  - destruct (body stock) as [s|c] eqn:Hb; simpl.
    + rewrite (body_settle_code _ _ _ _ _ Hb). split; [lia|].
      now constructor.
    + rewrite (body_watch_code _ _ _ _ _ Hb). split.
      * rewrite <- IHl. lia.
      * rewrite <- Permutation_middle. now constructor.
Qed.

End Cascade.

Lemma no_rule_refreshes_the_entry_witness :
  exists c,
    analyze_care_stock str_fraction demo_market demo_ranking
      (watched "000002" 19) = Watch c
    /\ care_buy_price c = of_int 19
    /\ care_current_price c = Some (of_int 20).
Proof.
  destruct (no_rule_refreshes_the_entry str_fraction demo_market
              demo_ranking demo_care (watched "000002" 19)
              (ranked "000002" "BETA" 20 9 (-2)))
    as (c & Hb & _ & _ & Hbuy & _ & _ & _ & Hcur & _).
  - simpl. right. left. reflexivity.
  - vm_compute. reflexivity.
  - vm_compute. reflexivity.
  - vm_compute. reflexivity.
  - left. vm_compute. reflexivity.
  - exists c. split; [exact Hb|]. split; [exact Hbuy | exact Hcur].
Defined.

Lemma rule_3_remark_prints_ratio_twice_witness :
  exists s,
    analyze_care_stock str_fraction (demo_spot (of_int 9) (of_int 9))
      (demo_flow (of_int 9) (of_int (-2)) (of_int 4))
      (demo_stock (of_int 10)) = Settle s
    /\ settled_remark s
       = "今日涨幅-2/1%大于0%，且主力净占比-2/1%小于0%，触发卖出条件".
Proof.
  destruct (rule_3_remark_prints_ratio_twice str_fraction
              (demo_spot (of_int 9) (of_int 9))
              (demo_flow (of_int 9) (of_int (-2)) (of_int 4))
              [demo_stock (of_int 10)] (demo_stock (of_int 10))
              {| flow_code := "600000"; flow_name := "PF BANK";
                 flow_latest_price := of_int 9;
                 flow_main_net_ratio := of_int (-2);
                 flow_today_change := of_int 4 |})
    as (s & Hb & _ & Hr & _).
  - simpl. left. reflexivity.
  - vm_compute. reflexivity.
  - vm_compute. reflexivity.
  - vm_compute. reflexivity.
  - vm_compute. reflexivity.
  - vm_compute. reflexivity.
  - exists s. split; [exact Hb|]. rewrite Hr. vm_compute. reflexivity.
Defined.

Lemma settlements_have_a_cause_witness :
  exists stock row,
    In stock demo_care
    /\ iloc0 (flow_with_code demo_ranking (care_code stock)) = Some row
    /\ flow_main_net_ratio row = of_int (-6).
Proof.
  destruct (settlements_have_a_cause str_fraction demo_market demo_ranking
              demo_care
              (settle (watched "600000" 10)
                 (ranked "600000" "PF BANK" 9 (-6) 1) (of_int 0)
                 (remark_ratio_below str_fraction (of_int (-6)))))
    as (stock & row & Hin & Hrow & _ & _ & _ & _ & _ & _ & Hratio & _).
  - vm_compute. left. reflexivity.
  - exists stock, row. split; [exact Hin|]. split; [exact Hrow|].
    symmetry. exact Hratio.
Defined.

(** ** The candidate loop *)

Section CandidateLoop.

Variable current_time : string.
Variable stock_data : spot_df.
Variable result_df : flow_df.

(** What the candidate loop appends, and which candidates it covers. *)
Lemma add_top_stocks_added (top_5 : list string) :
  (forall code, In code top_5 -> flow_with_code result_df code <> []) ->
  forall updated,
  exists added,
    add_top_stocks current_time stock_data result_df top_5 updated
    = Ok (updated ++ added)
    /\ (forall c, In c added ->
          exists info row,
            iloc0 (spot_with_code stock_data (care_code c)) = Some info
            /\ iloc0 (flow_with_code result_df (care_code c)) = Some row
            /\ c = new_stock current_time (care_code c) info row)
    /\ (forall code, In code top_5 ->
          spot_with_code stock_data code <> [] ->
          In code (map care_code (updated ++ added))).
Proof.
  induction top_5 as [|code rest IH]; intros Hrows updated; simpl.
  - exists []. rewrite app_nil_r. repeat split; contradiction.
  - assert (Hrest : forall c, In c rest -> flow_with_code result_df c <> [])
      by (intros c Hc; apply Hrows; now right).
    destruct (already_watched updated code) eqn:Hw.
    + destruct (IH Hrest updated) as (added & -> & Hadd & Hcov).
      exists added. split; [reflexivity|]. split; [assumption|].
      intros code' [<-|Hin] Hspot; [|now apply Hcov].
      apply already_watched_iff in Hw. rewrite map_app, in_app_iff.
      now left.
    + destruct (iloc0 (spot_with_code stock_data code)) as [info|] eqn:Hinfo.
      * destruct (iloc0 (flow_with_code result_df code)) as [row|] eqn:Hrow.
        2:{ exfalso. apply (Hrows code); [now left|].
            destruct (flow_with_code result_df code); [reflexivity|].
            discriminate. }
        destruct (IH Hrest
                    (updated ++ [new_stock current_time code info row]))
          as (added & -> & Hadd & Hcov).
        exists (new_stock current_time code info row :: added).
        rewrite <- app_assoc. simpl. split; [reflexivity|]. split.
        -- intros c [<-|Hc]; [|now apply Hadd]. simpl.
           exists info, row. now repeat split.
        -- intros code' [<-|Hin] Hspot.
           ++ rewrite map_app, in_app_iff. right. simpl. now left.
           ++ specialize (Hcov code' Hin Hspot).
              now rewrite <- app_assoc in Hcov.
      * destruct (IH Hrest updated) as (added & -> & Hadd & Hcov).
        exists added. split; [reflexivity|]. split; [assumption|].
        intros code' [<-|Hin] Hspot; [|now apply Hcov].
        exfalso. apply Hspot.
        destruct (spot_with_code stock_data code); [reflexivity|].
        discriminate.
Qed.

End CandidateLoop.

Lemma top_5_stocks_length (result_df : flow_df) :
  List.length (top_5_stocks result_df) <= 5.
Proof.
  unfold top_5_stocks.
  destruct (5 <=? List.length result_df)%nat; [|simpl; lia].
  rewrite length_map. apply firstn_le_length.
Qed.

Section EvaluateMore.

Variable str_float : num -> string.
Variable current_time : string.
Variable stock_data : spot_df.
Variable result_df main_fund_flow_df : flow_df.

Local Abbreviation body :=
  (analyze_care_stock str_float stock_data main_fund_flow_df).
Local Abbreviation kept :=
  (fun care_stocks : list care_stock =>
     flat_map (fun s => watched_of (body s)) care_stocks).

(** The evaluator's result with everything known about the added part. *)
Lemma evaluate_added (care_stocks : list care_stock) :
  exists added,
    evaluate str_float current_time care_stocks stock_data result_df
      main_fund_flow_df
    = Ok (flat_map (fun s => settled_of (body s)) care_stocks,
          kept care_stocks ++ added)
    /\ (forall c, In c added ->
          In (care_code c) (top_5_stocks result_df)
          /\ ~ In (care_code c) (map care_code (kept care_stocks)))
    /\ NoDup (map care_code added)
    /\ (forall c, In c added ->
          exists info row,
            iloc0 (spot_with_code stock_data (care_code c)) = Some info
            /\ iloc0 (flow_with_code result_df (care_code c)) = Some row
            /\ c = new_stock current_time (care_code c) info row)
    /\ (forall code, In code (top_5_stocks result_df) ->
          spot_with_code stock_data code <> [] ->
          In code (map care_code (kept care_stocks ++ added))).
Proof.
  destruct (evaluate_spec str_float current_time stock_data result_df
              main_fund_flow_df care_stocks) as (added & Hev & Hadd & Hnd).
  destruct (add_top_stocks_added current_time stock_data result_df
              (top_5_stocks result_df) (top_5_stocks_in_frame result_df)
              (kept care_stocks)) as (added' & Hev' & Hnew & Hcov).
  assert (Heq : added' = added).
  { unfold evaluate in Hev. rewrite care_loop_spec in Hev. simpl in Hev.
    rewrite Hev' in Hev. inversion Hev as [H].
    now apply app_inv_head in H. }
  subst added'. exists added. repeat split; try assumption; now apply Hadd.
Qed.

(** X7. Every entry of the updated watch list is either an entry the
    loop kept, or a new one for a top-five code that was not yet watched:
    opened at the latest price of the first spot row with that code, as
    buy price and as current price, with the name of that row, the run's
    timestamp as start time, the ratio and change of the first ranking
    row with that code, and no remark. *)
Theorem new_entries_open_at_the_spot_price (care_stocks : list care_stock) :
  exists settled updated,
    evaluate str_float current_time care_stocks stock_data result_df
      main_fund_flow_df = Ok (settled, updated)
    /\ forall c, In c updated ->
         (exists stock, In stock care_stocks /\ body stock = Watch c)
         \/ (In (care_code c) (top_5_stocks result_df)
             /\ (forall c', In c' (kept care_stocks) ->
                   care_code c' <> care_code c)
             /\ exists info row,
                  iloc0 (spot_with_code stock_data (care_code c)) = Some info
                  /\ iloc0 (flow_with_code result_df (care_code c))
                     = Some row
                  /\ care_buy_price c = spot_latest_price info
                  /\ care_current_price c = Some (spot_latest_price info)
                  /\ care_name c = Some (spot_name info)
                  /\ care_start_time c = current_time
                  /\ care_main_net_ratio c = Some (flow_main_net_ratio row)
                  /\ care_today_change c = Some (flow_today_change row)
                  /\ care_remark c = None).
Proof.
  destruct (evaluate_added care_stocks)
    as (added & -> & Hadd & _ & Hnew & _).
  eexists. eexists. split; [reflexivity|].
  intros c Hc. apply in_app_iff in Hc. destruct Hc as [Hc|Hc].
  - left. apply in_flat_map in Hc. destruct Hc as (stock & Hin & Hc).
    exists stock. split; [assumption|].
    destruct (body stock); simpl in Hc; [contradiction|].
    destruct Hc as [->|[]]. reflexivity.
  - right. destruct (Hadd c Hc) as (Htop & Hfresh).
    split; [assumption|]. split.
    + intros c' Hc' Heq. apply Hfresh. rewrite <- Heq. now apply in_map.
    + destruct (Hnew c Hc) as (info & row & Hinfo & Hrow & Heq).
      exists info, row. split; [assumption|]. split; [assumption|].
      rewrite Heq. simpl. repeat split; reflexivity.
Qed.

(** X8. Every top-five code that has a row in the spot table is in the
    updated watch list, kept from before or newly added. *)
Theorem quoted_candidates_end_up_watched
  (care_stocks : list care_stock) (code : string) :
  In code (top_5_stocks result_df) ->
  spot_with_code stock_data code <> [] ->
  exists settled updated,
    evaluate str_float current_time care_stocks stock_data result_df
      main_fund_flow_df = Ok (settled, updated)
    /\ In code (map care_code updated).
Proof.
  intros Htop Hspot.
  destruct (evaluate_added care_stocks) as (added & -> & _ & _ & _ & Hcov).
  eexists. eexists. split; [reflexivity|]. now apply Hcov.
Qed.

(** X9. A top-five code without a row in the spot table is not added:
    it is in the updated watch list only if the loop kept an entry with
    that code. *)
Theorem unquoted_candidates_are_not_added
  (care_stocks : list care_stock) (code : string) :
  spot_with_code stock_data code = [] ->
  exists settled updated,
    evaluate str_float current_time care_stocks stock_data result_df
      main_fund_flow_df = Ok (settled, updated)
    /\ (In code (map care_code updated) ->
        In code (map care_code (kept care_stocks))).
Proof.
  intro Hspot.
  destruct (evaluate_added care_stocks) as (added & -> & _ & _ & Hnew & _).
  eexists. eexists. split; [reflexivity|].
  rewrite map_app, in_app_iff. intros [Hk|Ha]; [assumption|].
  apply in_map_iff in Ha. destruct Ha as (c & <- & Hc).
  destruct (Hnew c Hc) as (info & row & Hinfo & _).
  rewrite Hspot in Hinfo. discriminate.
Qed.

(** X10. One evaluation adds at most five entries: the updated watch
    list is at most five longer than the input watch list. *)
Theorem at_most_five_entries_added (care_stocks : list care_stock) :
  exists settled updated,
    evaluate str_float current_time care_stocks stock_data result_df
      main_fund_flow_df = Ok (settled, updated)
    /\ List.length updated <= List.length care_stocks + 5.
Proof.
  destruct (evaluate_added care_stocks) as (added & -> & Hadd & Hnd & _).
  eexists. eexists. split; [reflexivity|].
  rewrite length_app.
  assert (Hk : List.length (kept care_stocks) <= List.length care_stocks).
  { clear. induction care_stocks as [|stock rest IH]; simpl; [lia|].
    rewrite length_app. destruct (body stock); simpl; lia. }
  assert (Ha : List.length added <= 5).
  { rewrite <- (length_map care_code).
    transitivity (List.length (top_5_stocks result_df));
      [|apply top_5_stocks_length].
    apply NoDup_incl_length; [assumption|].
    intros code Hin. apply in_map_iff in Hin.
    destruct Hin as (c & <- & Hc). now apply Hadd. }
  lia.
Qed.

(** X15. The ranking row of a candidate is read with an unguarded
    [.iloc[0]].  Because the candidates are codes of rows of [result_df],
    that lookup always finds a row and the evaluation ends without an
    IndexError, for every watch list and every pair of tables; a code
    with no row in [result_df] that has a spot row and is not watched
    yet would make the same lookup raise. *)
Theorem candidate_lookup_finds_its_row (care_stocks : list care_stock) :
  (exists settled updated,
     evaluate str_float current_time care_stocks stock_data result_df
       main_fund_flow_df = Ok (settled, updated))
  /\ (forall updated,
        exists updated',
          add_top_stocks current_time stock_data result_df
            (top_5_stocks result_df) updated = Ok updated')
  /\ (forall code rest updated,
        flow_with_code result_df code = [] ->
        spot_with_code stock_data code <> [] ->
        already_watched updated code = false ->
        add_top_stocks current_time stock_data result_df (code :: rest)
          updated = Raise IndexError).
Proof.
  split; [|split].
  - destruct (evaluate_added care_stocks) as (added & -> & _).
    eexists. eexists. reflexivity.
  - intro updated.
    destruct (add_top_stocks_added current_time stock_data result_df
                (top_5_stocks result_df) (top_5_stocks_in_frame result_df)
                updated) as (added & -> & _).
    eexists. reflexivity.
  - intros code rest updated Hflow Hspot Hw. simpl. rewrite Hw, Hflow.
    destruct (spot_with_code stock_data code) as [|info l];
      [contradiction|]. reflexivity.
Qed.

End EvaluateMore.

Lemma quoted_candidates_end_up_watched_witness :
  exists settled updated,
    evaluate str_fraction "2025-01-03 15:30:01" demo_care demo_market
      (result_df_of insertion_sort_desc demo_ranking) demo_ranking
    = Ok (settled, updated)
    /\ In "000006" (map care_code updated).
Proof.
  apply (quoted_candidates_end_up_watched str_fraction
           "2025-01-03 15:30:01" demo_market
           (result_df_of insertion_sort_desc demo_ranking) demo_ranking
           demo_care "000006").
  - vm_compute. right. left. reflexivity.
  - vm_compute. discriminate.
Defined.

Lemma unquoted_candidates_are_not_added_witness :
  exists settled updated,
    evaluate str_fraction "2025-01-03 15:30:01" demo_care demo_market
      (result_df_of insertion_sort_desc
         (ranked "000008" "KAPPA" 6 8 (-1) :: demo_ranking))
      demo_ranking
    = Ok (settled, updated)
    /\ (In "000008" (map care_code updated) ->
        In "000008"
          (map care_code
             (flat_map
                (fun s => watched_of
                   (analyze_care_stock str_fraction demo_market
                      demo_ranking s))
                demo_care))).
Proof.
  apply (unquoted_candidates_are_not_added str_fraction
           "2025-01-03 15:30:01" demo_market
           (result_df_of insertion_sort_desc
              (ranked "000008" "KAPPA" 6 8 (-1) :: demo_ranking))
           demo_ranking demo_care "000008").
  vm_compute. reflexivity.
Defined.

(** ** The ranking and the settlements *)

Lemma StronglySorted_app_rel {A : Type} (R : A -> A -> Prop)
  (l1 l2 : list A) :
  StronglySorted R (l1 ++ l2) ->
  forall a b, In a l1 -> In b l2 -> R a b.
Proof.
  induction l1 as [|x l1 IH]; simpl; intros HS a b Ha Hb; [contradiction|].
  inversion HS as [|? ? HS' Hall]; subst. destruct Ha as [<-|Ha].
  - rewrite Forall_forall in Hall. apply Hall. apply in_app_iff. now right.
  - now apply IH.
Qed.

Lemma NoDup_map_inj_on {A B : Type} (f : A -> B) (l : list A) (a b : A) :
  NoDup (map f l) -> In a l -> In b l -> f a = f b -> a = b.
Proof.
  induction l as [|x l IH]; simpl; intros Hnd Ha Hb Heq; [contradiction|].
  inversion Hnd as [|? ? Hnotin Hnd']; subst.
  destruct Ha as [<-|Ha], Hb as [<-|Hb]; auto.
  - exfalso. apply Hnotin. rewrite Heq. now apply in_map.
  - exfalso. apply Hnotin. rewrite <- Heq. now apply in_map.
Qed.

(** A row that passes the candidate filter triggers no settlement rule. *)
Lemma candidate_triggers_no_rule (row : flow_row) :
  candidate_mask row = true ->
  ~ (num_lt (flow_main_net_ratio row) (of_int (-5)) = true
     \/ num_gt (flow_today_change row) (of_int 10) = true
     \/ (num_gt (flow_today_change row) (of_int 0) = true
         /\ num_lt (flow_main_net_ratio row) (of_int 0) = true)).
Proof.
  intro Hmask. apply candidate_mask_iff in Hmask.
  destruct Hmask as (_ & Hratio & _ & Hchange).
  unfold num_gt in *.
  apply num_lt_fin in Hratio. destruct Hratio as (z & x & Hz & Hx & Hzx).
  apply num_lt_fin in Hchange. destruct Hchange as (y & z' & Hy & Hz' & Hyz).
  rewrite Hx, Hy. unfold of_int in *.
  injection Hz as <-. injection Hz' as <-. simpl.
  intros [H|[H|(_ & H)]]; apply Qltb_lt in H;
    unfold inject_Z in *; lra.
Qed.

Section RankingMore.

Variable sort_values_desc : flow_df -> flow_df.

Hypothesis sort_values_desc_perm :
  forall df, Permutation (sort_values_desc df) df.

Hypothesis sort_values_desc_sorted :
  forall df, StronglySorted not_below (sort_values_desc df).

Lemma result_df_rows (df : flow_df) (r : flow_row) :
  In r (result_df_of sort_values_desc df) ->
  In r df /\ candidate_mask r = true.
Proof.
  intro Hin. unfold result_df_of in Hin.
  apply (Permutation_in _ (sort_values_desc_perm _)) in Hin.
  unfold filtered_df in Hin. now apply filter_In in Hin.
Qed.

(** X11. Every candidate is the code of a row of the fund-flow table
    that passes the filter, and no row of the ranking left out of the
    first five has a larger ratio than one of the first five. *)
Theorem candidates_are_the_best_filtered_rows (df : flow_df) :
  (forall code,
     In code (top_5_stocks (result_df_of sort_values_desc df)) ->
     exists r, In r df /\ flow_code r = code /\ candidate_mask r = true)
  /\ (forall a b,
        In a (firstn 5 (result_df_of sort_values_desc df)) ->
        In b (skipn 5 (result_df_of sort_values_desc df)) ->
        num_ge (flow_main_net_ratio a) (flow_main_net_ratio b) = true).
Proof.
  split.
  - intros code Hin. unfold top_5_stocks in Hin.
    destruct (5 <=? List.length (result_df_of sort_values_desc df))%nat;
      [|contradiction].
    apply in_map_iff in Hin. destruct Hin as (r & Hcode & Hr).
    assert (Hr' : In r (result_df_of sort_values_desc df)).
    { rewrite <- (firstn_skipn 5 (result_df_of sort_values_desc df)).
      apply in_app_iff. now left. }
    apply result_df_rows in Hr'. exists r. tauto.
  - intros a b Ha Hb.
    pose proof (sort_values_desc_sorted (filtered_df df)) as HS.
    fold (result_df_of sort_values_desc df) in HS.
    rewrite <- (firstn_skipn 5 (result_df_of sort_values_desc df)) in HS.
    pose proof (StronglySorted_app_rel _ _ _ HS a b Ha Hb) as Hab.
    cbv beta in Hab.
    assert (Hfin : forall r,
               In r (result_df_of sort_values_desc df) ->
               exists x, flow_main_net_ratio r = Fin x).
    { intros r Hr. apply result_df_rows in Hr. destruct Hr as (_ & Hm).
      apply candidate_mask_iff in Hm. destruct Hm as (_ & Hm & _).
      apply num_lt_fin in Hm. destruct Hm as (z & x & _ & Hx & _). eauto. }
    destruct (Hfin a) as (x & Hx).
    { rewrite <- (firstn_skipn 5 (result_df_of sort_values_desc df)).
      apply in_app_iff. now left. }
    destruct (Hfin b) as (y & Hy).
    { rewrite <- (firstn_skipn 5 (result_df_of sort_values_desc df)).
      apply in_app_iff. now right. }
    rewrite Hx, Hy in *. simpl in *. apply Qle_bool_iff. now apply Qltb_ge.
Qed.

Variable str_float : num -> string.
Variable current_time : string.
Variable stock_data : spot_df.

(** X12. When the codes of the fund-flow table are pairwise distinct, a
    stock settled in an evaluation is not watched after it: no kept entry
    has its code and it is not added back as a candidate. *)
Theorem settled_stocks_leave_the_watch_list
  (df : flow_df) (care_stocks : list care_stock) :
  NoDup (map flow_code df) ->
  exists settled updated,
    evaluate str_float current_time care_stocks stock_data
      (result_df_of sort_values_desc df) df = Ok (settled, updated)
    /\ forall s, In s settled ->
         ~ In (settled_code s) (map care_code updated).
Proof.
  intro Hnd.
  destruct (evaluate_spec str_float current_time stock_data
              (result_df_of sort_values_desc df) df care_stocks)
    as (added & -> & Hadd & _).
  eexists. eexists. split; [reflexivity|].
  intros s Hs Hin. apply in_flat_map in Hs.
  destruct Hs as (stock & Hstock & Hs).
  destruct (analyze_care_stock str_float stock_data df stock)
    as [s'|c0] eqn:Hb; simpl in Hs; [|contradiction].
  destruct Hs as [->|[]].
  pose proof (body_settle_code _ _ _ _ _ Hb) as Hcode.
  destruct (body_settle_inv _ _ _ _ _ Hb) as (row & Hrow & Hrule & _).
  rewrite Hcode in Hin. rewrite map_app, in_app_iff in Hin.
  destruct Hin as [Hin|Hin].
  - apply in_map_iff in Hin. destruct Hin as (c & Hc & Hin).
    apply in_flat_map in Hin. destruct Hin as (stock' & _ & Hin).
    destruct (analyze_care_stock str_float stock_data df stock')
      as [s'|c'] eqn:Hb'; simpl in Hin; [contradiction|].
    destruct Hin as [->|[]].
    pose proof (body_watch_code _ _ _ _ _ Hb') as Hc'.
    unfold analyze_care_stock in Hb'.
    replace (care_code stock') with (care_code stock) in Hb' at 1
      by congruence.
    rewrite Hrow in Hb'. revert Hb'. unfold apply_rules.
    destruct Hrule as [H|[H|(H1 & H2)]];
      [rewrite H | rewrite H | rewrite H1, H2; cbn [andb]];
      repeat match goal with
             | |- context [if ?b then _ else _] => destruct b
             end; discriminate.
  - apply in_map_iff in Hin. destruct Hin as (c & Hc & Hin).
    destruct (Hadd c Hin) as (Htop & _). rewrite Hc in Htop.
    unfold top_5_stocks in Htop.
    destruct (5 <=? List.length (result_df_of sort_values_desc df))%nat;
      [|contradiction].
    apply in_map_iff in Htop. destruct Htop as (r & Hr & Hin').
    assert (Hr' : In r (result_df_of sort_values_desc df)).
    { rewrite <- (firstn_skipn 5 (result_df_of sort_values_desc df)).
      apply in_app_iff. now left. }
    apply result_df_rows in Hr'. destruct Hr' as (Hdf & Hmask).
    assert (Hrowdf : In row df /\ flow_code row = care_code stock).
    { unfold iloc0, flow_with_code in Hrow.
      destruct (filter _ df) as [|x l] eqn:Hf; [discriminate|].
      inversion Hrow; subst x.
      assert (Hx : In row (row :: l)) by now left.
      rewrite <- Hf in Hx. apply filter_In in Hx.
      destruct Hx as (Hx & Heq). now apply String.eqb_eq in Heq. }
    destruct Hrowdf as (Hrowdf & Hrowcode).
    assert (r = row)
      by (apply (NoDup_map_inj_on flow_code df); auto; congruence).
    subst r. exact (candidate_triggers_no_rule row Hmask Hrule).
Qed.

End RankingMore.

Lemma candidates_are_the_best_filtered_rows_witness :
  exists r,
    In r demo_ranking /\ flow_code r = "000002"
    /\ candidate_mask r = true.
Proof.
  destruct (candidates_are_the_best_filtered_rows insertion_sort_desc
              insertion_sort_desc_perm insertion_sort_desc_sorted
              demo_ranking) as (H & _).
  apply (H "000002"). vm_compute. left. reflexivity.
Defined.

Lemma settled_stocks_leave_the_watch_list_witness :
  exists settled updated,
    evaluate str_fraction "2025-01-03 15:30:01" demo_care demo_market
      (result_df_of insertion_sort_desc demo_ranking) demo_ranking
    = Ok (settled, updated)
    /\ forall s, In s settled ->
         ~ In (settled_code s) (map care_code updated).
Proof.
  apply (settled_stocks_leave_the_watch_list insertion_sort_desc
           insertion_sort_desc_perm str_fraction "2025-01-03 15:30:01"
           demo_market demo_ranking demo_care).
  simpl. repeat constructor; simpl; intuition discriminate.
Defined.

(** ** The name filter *)

Lemma substring_prefix (n : nat) (s p : string) :
  substring 0 n s = p -> exists suf, s = (p ++ suf)%string.
Proof.
  revert s p. induction n as [|n IH]; intros s p H.
  - destruct s; simpl in H; subst p; eexists; reflexivity.
  - destruct s as [|c s]; simpl in H.
    + subst p. exists "". reflexivity.
    + destruct p as [|c' p]; [discriminate|]. injection H as -> H.
      destruct (IH _ _ H) as (suf & ->). exists suf. reflexivity.
Qed.

Lemma substring_occurs (m n : nat) (s p : string) :
  substring m n s = p -> exists pre suf, s = (pre ++ p ++ suf)%string.
Proof.
  revert s. induction m as [|m IH]; intros s H.
  - destruct (substring_prefix _ _ _ H) as (suf & ->). exists "", suf.
    reflexivity.
  - destruct s as [|c s]; simpl in H.
    + subst p. exists "", "". reflexivity.
    + destruct (IH _ H) as (pre & suf & ->). exists (String c pre), suf.
      reflexivity.
Qed.

Lemma substring_at_occurrence (pre p suf : string) :
  substring (String.length pre) (String.length p) (pre ++ p ++ suf)%string
  = p.
Proof.
  induction pre as [|c pre IH]; simpl; [|exact IH].
  induction p as [|c p IHp]; simpl.
  - now destruct suf.
  - now rewrite IHp.
Qed.

Lemma str_contains_iff (pat s : string) :
  pat <> "" ->
  (str_contains pat s = true <-> exists pre suf, s = (pre ++ pat ++ suf)%string).
Proof.
  intro Hpat. unfold str_contains. split.
  - destruct (index 0 pat s) as [m|] eqn:E; [|discriminate]. intros _.
    apply index_correct1 in E. eapply substring_occurs. eassumption.
  - intros (pre & suf & ->).
    destruct (index 0 pat (pre ++ pat ++ suf)%string) as [m|] eqn:E;
      [reflexivity|].
    exfalso.
    apply (index_correct3 0 (String.length pre) pat _ E Hpat); [lia|].
    apply substring_at_occurrence.
Qed.

(** X13. A row of the fund-flow table passes the candidate filter
    exactly when its latest price is present, its ratio is above 0, its
    change is below 0 and the two characters "ST" occur nowhere in its
    name, in this case and next to each other. *)
Theorem candidate_mask_excludes_ST_anywhere (r : flow_row) :
  candidate_mask r = true
  <-> notna (flow_latest_price r) = true
      /\ num_gt (flow_main_net_ratio r) (of_int 0) = true
      /\ num_lt (flow_today_change r) (of_int 0) = true
      /\ ~ exists pre suf, flow_name r = (pre ++ "ST" ++ suf)%string.
Proof.
  rewrite candidate_mask_iff.
  assert (Hst : str_contains "ST" (flow_name r) = false
                <-> ~ exists pre suf,
                        flow_name r = (pre ++ "ST" ++ suf)%string).
  { rewrite <- (str_contains_iff "ST" (flow_name r)) by discriminate.
    destruct (str_contains "ST" (flow_name r)); split; intro H;
      try reflexivity; try discriminate; try congruence. }
  rewrite Hst. tauto.
Qed.

(** ** Saving *)

Lemma read_backup_put (name : string) (content : file (list care_stock))
  (dir : list (string * file (list care_stock))) :
  read_backup name (put_backup name content dir) = Some content
  /\ (forall other, other <> name ->
        read_backup other (put_backup name content dir)
        = read_backup other dir)
  /\ List.length
       (filter (fun entry => String.eqb (fst entry) name)
          (put_backup name content dir)) = 1.
Proof.
  unfold read_backup, put_backup. simpl. rewrite String.eqb_refl.
  split; [reflexivity|]. split.
  - intros other Hne. apply String.eqb_neq in Hne.
    rewrite String.eqb_sym, Hne.
    induction dir as [|[n c] dir IH]; simpl; [reflexivity|].
    destruct (String.eqb n name) eqn:E; simpl.
    + apply String.eqb_eq in E. subst n. rewrite String.eqb_sym, Hne.
      exact IH.
    + destruct (String.eqb n other); [reflexivity | exact IH].
  - simpl. f_equal.
    induction dir as [|[n c] dir IH]; simpl; [reflexivity|].
    destruct (String.eqb n name) eqn:E; simpl; [exact IH|].
    now rewrite E.
Qed.

Lemma save_care_stocks_result (self : StockAnalyzer)
  (care_stocks : list care_stock) (w : world) :
  provider (snd (save_care_stocks self care_stocks w)) = provider w
  /\ trace (snd (save_care_stocks self care_stocks w)) = trace w
  /\ files (snd (save_care_stocks self care_stocks w))
     = if write_fails (files w) care_file then
         if cut_short (files w) care_file then
           {| care_json := Unreadable;
              data_dir := data_dir (files w);
              result_json := result_json (files w);
              result_md := result_md (files w);
              write_fails := write_fails (files w);
              cut_short := cut_short (files w) |}
         else files w
       else {| care_json := Stored care_stocks;
               data_dir :=
                 if write_fails (files w)
                      (backup_file ("care_" ++ today self ++ ".json"))
                 then
                   if cut_short (files w)
                        (backup_file ("care_" ++ today self ++ ".json"))
                   then put_backup ("care_" ++ today self ++ ".json")
                          Unreadable (data_dir (files w))
                   else data_dir (files w)
                 else put_backup ("care_" ++ today self ++ ".json")
                        (Stored care_stocks) (data_dir (files w));
               result_json := result_json (files w);
               result_md := result_md (files w);
               write_fails := write_fails (files w);
               cut_short := cut_short (files w) |}.
Proof.
  unfold save_care_stocks, bind, read_files, write_files, ret. simpl.
  destruct (write_fails (files w) care_file); simpl.
  - destruct (cut_short (files w) care_file); simpl; now repeat split.
  - destruct (write_fails (files w) (backup_file _)); simpl;
      [|now repeat split].
    destruct (cut_short (files w) (backup_file _)); simpl;
      now repeat split.
Qed.

Lemma save_settlements_result (self : StockAnalyzer)
  (settled : list settled_stock) (w : world) :
  provider (snd (save_settlements_to_json self settled w)) = provider w
  /\ trace (snd (save_settlements_to_json self settled w)) = trace w
  /\ files (snd (save_settlements_to_json self settled w))
     = if write_fails (files w) result_json_file then
         if cut_short (files w) result_json_file then
           {| care_json := care_json (files w);
              data_dir := data_dir (files w);
              result_json := Unreadable;
              result_md := result_md (files w);
              write_fails := write_fails (files w);
              cut_short := cut_short (files w) |}
         else files w
       else {| care_json := care_json (files w);
               data_dir := data_dir (files w);
               result_json :=
                 Stored {| last_update := current_time self;
                           settled_stocks := Some settled |};
               result_md := result_md (files w);
               write_fails := write_fails (files w);
               cut_short := cut_short (files w) |}.
Proof.
  unfold save_settlements_to_json, bind, read_files, write_files, ret.
  simpl. destruct (write_fails (files w) result_json_file); simpl;
    [|now repeat split].
  destruct (cut_short (files w) result_json_file); simpl; now repeat split.
Qed.

(** X14. [save_care_stocks] leaves [result.json] and the report alone.
    When [care.json] cannot be written the copy is not attempted and the
    backups stay as they are; [care.json] itself is as before when
    [open] fails, and cut short when the failure comes after [open].
    Otherwise [care.json] holds the list.  The backup named after today
    then either holds the same list, or, when the copy fails, is as
    before or cut short; a backup written or cut short replaces any
    earlier one of that name, and backups of other names stay as they
    were. *)
Theorem save_care_stocks_outcomes (self : StockAnalyzer)
  (care_stocks : list care_stock) (w : world) :
  result_json (files (snd (save_care_stocks self care_stocks w)))
  = result_json (files w)
  /\ result_md (files (snd (save_care_stocks self care_stocks w)))
     = result_md (files w)
  /\ (write_fails (files w) care_file = true ->
      care_json (files (snd (save_care_stocks self care_stocks w)))
      = (if cut_short (files w) care_file then Unreadable
         else care_json (files w))
      /\ data_dir (files (snd (save_care_stocks self care_stocks w)))
         = data_dir (files w))
  /\ (write_fails (files w) care_file = false ->
      care_json (files (snd (save_care_stocks self care_stocks w)))
      = Stored care_stocks
      /\ (write_fails (files w)
            (backup_file ("care_" ++ today self ++ ".json")) = true ->
          cut_short (files w)
            (backup_file ("care_" ++ today self ++ ".json")) = false ->
          data_dir (files (snd (save_care_stocks self care_stocks w)))
          = data_dir (files w))
      /\ ((write_fails (files w)
             (backup_file ("care_" ++ today self ++ ".json")) = false
           \/ cut_short (files w)
                (backup_file ("care_" ++ today self ++ ".json")) = true) ->
          read_backup ("care_" ++ today self ++ ".json")
            (data_dir (files (snd (save_care_stocks self care_stocks w))))
          = Some (if write_fails (files w)
                       (backup_file ("care_" ++ today self ++ ".json"))
                  then Unreadable else Stored care_stocks)
          /\ (forall other,
                other <> ("care_" ++ today self ++ ".json")%string ->
                read_backup other
                  (data_dir
                     (files (snd (save_care_stocks self care_stocks w))))
                = read_backup other (data_dir (files w)))
          /\ List.length
               (filter
                  (fun entry =>
                     String.eqb (fst entry)
                       ("care_" ++ today self ++ ".json"))
                  (data_dir
                     (files (snd (save_care_stocks self care_stocks w)))))
             = 1)).
Proof.
  destruct (save_care_stocks_result self care_stocks w) as (Hp & Ht & Hf).
  rewrite Hf.
  destruct (write_fails (files w) care_file) eqn:Ec.
  - destruct (cut_short (files w) care_file); simpl;
      (split; [reflexivity|]); (split; [reflexivity|]);
      (split; [|discriminate]); intros _; now split.
  - simpl. split; [reflexivity|]. split; [reflexivity|].
    split; [discriminate|]. intros _. split; [reflexivity|].
    destruct (write_fails (files w) (backup_file _)) eqn:Eb.
    + destruct (cut_short (files w) (backup_file _)) eqn:Et.
      * split; [discriminate|]. intros _.
        apply (read_backup_put ("care_" ++ today self ++ ".json")
                 Unreadable (data_dir (files w))).
      * split; [reflexivity|]. intros [H|H]; discriminate.
    + split; [discriminate|]. intros _.
      apply (read_backup_put ("care_" ++ today self ++ ".json")
               (Stored care_stocks) (data_dir (files w))).
Qed.

(** ** The run as a whole *)

Section FetchEvents.

Context {A : Type}.
Variable call : M (option A).
Variable method : ak_method.

Hypothesis call_trace :
  forall w, trace (snd (call w)) = trace w ++ [Called method].

Lemma fetch_attempts_events (max_retries retry_delay : nat)
  (attempts : list nat) :
  forall w,
  exists evs,
    trace (snd (fetch_attempts call max_retries retry_delay attempts w))
    = trace w ++ evs
    /\ Forall (fun e => e = Called method \/ e = Slept retry_delay) evs.
Proof.
  induction attempts as [|attempt rest IH]; intro w; simpl.
  - exists []. rewrite app_nil_r. split; [reflexivity | constructor].
  - unfold bind. pose proof (call_trace w) as Ht.
    destruct (call w) as [[data|] w1]; simpl in *.
    + exists [Called method]. split; [assumption|].
      constructor; [now left | constructor].
    + destruct (attempt <? max_retries - 1)%nat; simpl.
      * match goal with
        | |- context [fetch_attempts _ _ _ _ ?w2] =>
            destruct (IH w2) as (evs & -> & Hall)
        end.
        simpl. rewrite Ht. rewrite <- !app_assoc. simpl.
        eexists. split; [reflexivity|].
        constructor; [now left|]. constructor; [now right | assumption].
      * destruct (IH w1) as (evs & -> & Hall). rewrite Ht.
        rewrite <- app_assoc. simpl. eexists. split; [reflexivity|].
        constructor; [now left | assumption].
Qed.

End FetchEvents.

Section PipelineMore.

Variable str_float : num -> string.
Variable sort_values_desc : flow_df -> flow_df.
Variable format_2f : num -> string.
Variable format_signed_2f : num -> string.

Local Abbreviation run :=
  (analyze_stocks str_float sort_values_desc format_2f format_signed_2f).
Local Abbreviation fetch_flow :=
  (fetch_data_by_ak ak_stock_main_fund_flow 3 25).
Local Abbreviation report :=
  (save_result_report str_float format_2f format_signed_2f).

Lemma save_result_report_result (self : StockAnalyzer)
  (care_stocks : list care_stock) (settled : list settled_stock)
  (w : world) :
  provider (snd (report self care_stocks settled w)) = provider w
  /\ trace (snd (report self care_stocks settled w)) = trace w
  /\ files (snd (report self care_stocks settled w))
     = if write_fails (files w) result_file then
         if cut_short (files w) result_file then
           {| care_json := care_json (files w);
              data_dir := data_dir (files w);
              result_json := result_json (files w);
              result_md := Unreadable;
              write_fails := write_fails (files w);
              cut_short := cut_short (files w) |}
         else files w
       else {| care_json := care_json (files w);
               data_dir := data_dir (files w);
               result_json := result_json (files w);
               result_md :=
                 Stored (report_content str_float format_2f
                           format_signed_2f self care_stocks settled);
               write_fails := write_fails (files w);
               cut_short := cut_short (files w) |}.
Proof.
  unfold save_result_report, bind, read_files, write_files, ret. simpl.
  destruct (write_fails (files w) result_file); simpl; [|now repeat split].
  destruct (cut_short (files w) result_file); simpl; now repeat split.
Qed.

(** The four ways a run can go, with the world each one ends in. *)
Lemma run_cases (self : StockAnalyzer) (w : world) :
  let w1 := snd (is_trading_day self w) in
  let w2 := snd (get_stock_data w1) in
  let w3 := snd (fetch_flow w2) in
  (fst (is_trading_day self w) = false /\ run self w = (Returned, w1))
  \/ (fst (is_trading_day self w) = true
      /\ fst (get_stock_data w1) = None
      /\ run self w = (Returned, w2))
  \/ (fst (is_trading_day self w) = true
      /\ (exists stock_data, fst (get_stock_data w1) = Some stock_data)
      /\ fst (fetch_flow w2) = None
      /\ run self w = (Returned, w3))
  \/ (exists stock_data df settled updated,
        fst (is_trading_day self w) = true
        /\ fst (get_stock_data w1) = Some stock_data
        /\ fst (fetch_flow w2) = Some df
        /\ evaluate str_float (current_time self) (fst (load_care_stocks w))
             stock_data (result_df_of sort_values_desc df) df
           = Ok (settled, updated)
        /\ run self w
           = (Returned,
              snd (report self updated
                     (fst (load_previous_settlements w) ++ settled)
                     (snd (save_settlements_to_json self
                             (fst (load_previous_settlements w) ++ settled)
                             (snd (save_care_stocks self updated w3))))))).
Proof.
  intros w1 w2 w3. subst w1 w2 w3. unfold analyze_stocks, bind.
  pose proof (is_trading_day_files self w) as F1.
  destruct (is_trading_day self w) as [[|] w1]; simpl in *; [|now left].
  right. rewrite load_care_stocks_run.
  rewrite (load_care_stocks_files w w1 F1).
  pose proof (get_stock_data_files w1) as F2.
  destruct (get_stock_data w1) as [[stock_data|] w2]; simpl in *;
    [|now left].
  right. unfold get_main_fund_flow, bind.
  pose proof (fetch_fund_flow_files w2) as F3.
  destruct (fetch_flow w2) as [[df|] w3]; simpl in *.
  - right.
    destruct (evaluate_spec str_float (current_time self) stock_data
                (result_df_of sort_values_desc df) df
                (fst (load_care_stocks w))) as (added & Hev & _).
    rewrite Hev. rewrite load_previous_settlements_run.
    assert (F : files w3 = files w) by congruence.
    rewrite (load_previous_settlements_files w w3 F).
    exists stock_data, df. eexists. eexists.
    split; [reflexivity|]. split; [reflexivity|]. split; [reflexivity|].
    split; [exact Hev|].
    destruct (save_care_stocks self _ w3) as [[] w4]. simpl.
    destruct (save_settlements_to_json self _ w4) as [[] w5]. simpl.
    destruct (report self _ _ w5) as [[] w6]. reflexivity.
  - left. split; [reflexivity|]. split; [eauto|]. now split.
Qed.

(** X16. The provider is called stage by stage: the events of a run are
    those of the calendar fetch, then those of the spot fetch, then those
    of the fund-flow fetch, each made of calls of its own operation and
    pauses of 25 seconds.  No spot or fund-flow call is made when the
    gate answers false, and no fund-flow call when the spot fetch yields
    nothing. *)
Theorem provider_is_called_stage_by_stage
  (self : StockAnalyzer) (w : world) :
  exists calendar spot flow,
    trace (snd (run self w)) = trace w ++ calendar ++ spot ++ flow
    /\ Forall (fun e => e = Called Trade_calendar \/ e = Slept 25) calendar
    /\ Forall (fun e => e = Called Stock_spot \/ e = Slept 25) spot
    /\ Forall (fun e => e = Called Main_fund_flow \/ e = Slept 25) flow
    /\ (fst (is_trading_day self w) = false -> spot = [] /\ flow = [])
    /\ (fst (get_stock_data (snd (is_trading_day self w))) = None ->
        flow = []).
Proof.
  assert (H1 : exists calendar,
             trace (snd (is_trading_day self w)) = trace w ++ calendar
             /\ Forall (fun e => e = Called Trade_calendar \/ e = Slept 25)
                  calendar).
  { rewrite is_trading_day_world.
    apply (fetch_attempts_events _ _ calendar_call_trace). }
  destruct H1 as (calendar & T1 & A1).
  destruct (fetch_attempts_events _ _ spot_call_trace 3 25 (seq 0 3)
              (snd (is_trading_day self w))) as (spot & T2 & A2).
  fold (fetch_data_by_ak ak_stock_zh_a_spot_em 3 25) in T2.
  fold get_stock_data in T2.
  destruct (fetch_attempts_events _ _ flow_call_trace 3 25 (seq 0 3)
              (snd (get_stock_data (snd (is_trading_day self w)))))
    as (flow & T3 & A3).
  fold (fetch_data_by_ak ak_stock_main_fund_flow 3 25) in T3.
  destruct (run_cases self w)
    as [(Hd & ->)|[(Hd & Hs & ->)|[(Hd & (sd & Hs) & _ & ->)
       |(sd & df & s & u & Hd & Hs & _ & _ & ->)]]]; cbn [snd].
  - exists calendar, [], []. rewrite app_nil_r.
    repeat split; auto; constructor.
  - exists calendar, spot, []. rewrite app_nil_r, T2, T1, <- app_assoc.
    repeat split; auto; try constructor; congruence.
  - exists calendar, spot, flow. rewrite T3, T2, T1, <- !app_assoc.
    repeat split; auto; congruence.
  - exists calendar, spot, flow.
    destruct (save_result_report_result self u
                (fst (load_previous_settlements w) ++ s)
                (snd (save_settlements_to_json self
                        (fst (load_previous_settlements w) ++ s)
                        (snd (save_care_stocks self u
                                (snd (fetch_flow
                                        (snd (get_stock_data
                                                (snd (is_trading_day self
                                                        w)))))))))))
      as (_ & -> & _).
    destruct (save_settlements_result self
                (fst (load_previous_settlements w) ++ s)
                (snd (save_care_stocks self u
                        (snd (fetch_flow
                                (snd (get_stock_data
                                        (snd (is_trading_day self w))))))))
      ) as (_ & -> & _).
    destruct (save_care_stocks_result self u
                (snd (fetch_flow
                        (snd (get_stock_data
                                (snd (is_trading_day self w)))))))
      as (_ & -> & _).
    rewrite T3, T2, T1, <- !app_assoc.
    repeat split; auto; congruence.
Qed.

(** X17. On a run that reaches persistence the three files are written
    one by one, each on its own: [care.json] holds the updated watch
    list, [result.json] the merged ledger and the report the rendering
    of both, each unless its own write fails.  A file whose write fails
    at [open] keeps its content, one whose write fails after [open] is
    left cut short; neither stops the other files from being written. *)
Theorem each_file_is_saved_on_its_own (self : StockAnalyzer) (w : world)
  (stock_data : spot_df) (df : flow_df) :
  fst (is_trading_day self w) = true ->
  fst (get_stock_data (snd (is_trading_day self w))) = Some stock_data ->
  fst (fetch_flow (snd (get_stock_data (snd (is_trading_day self w)))))
  = Some df ->
  exists settled updated,
    evaluate str_float (current_time self) (fst (load_care_stocks w))
      stock_data (result_df_of sort_values_desc df) df
    = Ok (settled, updated)
    /\ care_json (files (snd (run self w)))
       = (if write_fails (files w) care_file then
            if cut_short (files w) care_file then Unreadable
            else care_json (files w)
          else Stored updated)
    /\ result_json (files (snd (run self w)))
       = (if write_fails (files w) result_json_file then
            if cut_short (files w) result_json_file then Unreadable
            else result_json (files w)
          else Stored
                 {| last_update := current_time self;
                    settled_stocks :=
                      Some (fst (load_previous_settlements w)
                              ++ settled) |})
    /\ result_md (files (snd (run self w)))
       = (if write_fails (files w) result_file then
            if cut_short (files w) result_file then Unreadable
            else result_md (files w)
          else Stored
                 (report_content str_float format_2f format_signed_2f self
                    updated
                    (fst (load_previous_settlements w) ++ settled))).
Proof.
  intros Hd Hs Hf.
  destruct (run_cases self w)
    as [(Hd' & _)|[(_ & Hs' & _)|[(_ & _ & Hf' & _)
       |(sd & df' & s & u & _ & Hs' & Hf' & Hev & ->)]]];
    try congruence.
  assert (sd = stock_data) by congruence.
  assert (df' = df) by congruence. subst sd df'.
  exists s, u. split; [exact Hev|]. simpl.
  set (w3 := snd (fetch_flow (snd (get_stock_data
                                   (snd (is_trading_day self w)))))).
  assert (F : files w3 = files w).
  { subst w3. rewrite fetch_fund_flow_files, get_stock_data_files.
    apply is_trading_day_files. }
  destruct (save_care_stocks_result self u w3) as (_ & _ & F4).
  set (w4 := snd (save_care_stocks self u w3)) in *.
  destruct (save_settlements_result self
              (fst (load_previous_settlements w) ++ s) w4) as (_ & _ & F5).
  set (w5 := snd (save_settlements_to_json self
                    (fst (load_previous_settlements w) ++ s) w4)) in *.
  destruct (save_result_report_result self u
              (fst (load_previous_settlements w) ++ s) w5) as (_ & _ & F6).
  rewrite F6, F5, F4, F.
  destruct (write_fails (files w) care_file) eqn:E1,
    (cut_short (files w) care_file) eqn:C1,
    (write_fails (files w) result_json_file) eqn:E2,
    (cut_short (files w) result_json_file) eqn:C2,
    (write_fails (files w) result_file) eqn:E3,
    (cut_short (files w) result_file) eqn:C3;
    simpl; rewrite ?E1, ?E2, ?E3, ?C1, ?C2, ?C3; simpl;
    rewrite ?E1, ?E2, ?E3, ?C1, ?C2, ?C3; simpl;
    rewrite ?E1, ?E2, ?E3, ?C1, ?C2, ?C3; simpl;
    repeat split; reflexivity.
Qed.

End PipelineMore.

Lemma each_file_is_saved_on_its_own_witness :
  exists settled updated,
    evaluate str_fraction (current_time demo_self)
      (fst (load_care_stocks demo_world)) demo_market
      (result_df_of insertion_sort_desc demo_ranking) demo_ranking
    = Ok (settled, updated)
    /\ care_json
         (files (snd (analyze_stocks str_fraction insertion_sort_desc
                        str_fraction str_fraction demo_self demo_world)))
       = Stored updated.
Proof.
  destruct (each_file_is_saved_on_its_own str_fraction insertion_sort_desc
              str_fraction str_fraction demo_self demo_world demo_market
              demo_ranking) as (s & u & Hev & Hcare & _).
  - vm_compute. reflexivity.
  - vm_compute. reflexivity.
  - vm_compute. reflexivity.
  - exists s, u. split; [exact Hev | exact Hcare].
Defined.

Lemma is_trading_day_of_dates_witness :
  fst (is_trading_day demo_self demo_world) = true
  <-> In (mk_date 2025 1 3) demo_calendar.
Proof.
  apply (is_trading_day_of_dates
           (mk_datetime (mk_date 2025 1 3) 15 30 0)
           (mk_datetime (mk_date 2025 1 3) 15 30 1)
           demo_world demo_calendar).
  - vm_compute. reflexivity.
  - simpl. lia.
  - unfold date_ok. simpl. lia.
  - unfold demo_calendar, date_ok. repeat constructor; simpl; lia.
Defined.

(** ** Missing values in the matched row *)

Section MissingValues.

Variable str_float : num -> string.
Variable stock_data : spot_df.
Variable main_fund_flow_df : flow_df.

Local Abbreviation body :=
  (analyze_care_stock str_float stock_data main_fund_flow_df).

(** X19. Comparisons with a missing value are false, so a matched row
    without a ratio can only be settled by rule 2 (change above 10), and
    a matched row without a change only by rule 1 (ratio below -5); a
    row with neither is always kept. *)
Theorem missing_values_trigger_no_rule
  (stock : care_stock) (row : flow_row) :
  iloc0 (flow_with_code main_fund_flow_df (care_code stock)) = Some row ->
  (flow_main_net_ratio row = NaN ->
   ((exists s, body stock = Settle s)
    <-> num_gt (flow_today_change row) (of_int 10) = true))
  /\ (flow_today_change row = NaN ->
      ((exists s, body stock = Settle s)
       <-> num_lt (flow_main_net_ratio row) (of_int (-5)) = true))
  /\ (flow_main_net_ratio row = NaN -> flow_today_change row = NaN ->
      exists c, body stock = Watch c).
Proof.
  intro Hrow. unfold analyze_care_stock. rewrite Hrow. unfold apply_rules.
  split; [|split].
  - intros ->.
    replace (num_lt NaN (of_int (-5))) with false by reflexivity.
    replace (num_lt NaN (of_int 0)) with false by reflexivity.
    rewrite andb_false_r.
    destruct (num_gt (flow_today_change row) (of_int 10)).
    + split; [reflexivity | eauto].
    + split; [|discriminate]. intros (s & Hs). discriminate.
  - intros ->.
    replace (num_gt NaN (of_int 10)) with false by reflexivity.
    replace (num_gt NaN (of_int 0)) with false by reflexivity.
    cbn [andb].
    destruct (num_lt (flow_main_net_ratio row) (of_int (-5))).
    + split; [reflexivity | eauto].
    + split; [|discriminate]. intros (s & Hs). discriminate.
  - intros -> ->. eexists. reflexivity.
Qed.

End MissingValues.

Lemma missing_values_trigger_no_rule_witness :
  exists c,
    analyze_care_stock str_fraction demo_market
      (demo_flow (of_int 9) NaN NaN) (demo_stock (of_int 10)) = Watch c.
Proof.
  destruct (missing_values_trigger_no_rule str_fraction demo_market
              (demo_flow (of_int 9) NaN NaN) (demo_stock (of_int 10))
              {| flow_code := "600000"; flow_name := "PF BANK";
                 flow_latest_price := of_int 9;
                 flow_main_net_ratio := NaN;
                 flow_today_change := NaN |}) as (_ & _ & H).
  - vm_compute. reflexivity.
  - apply H; reflexivity.
Defined.
